(** * chipdrive.py: the tmc5130 motion controller

    A shallow embedding of [src/chipdrive.py], the class [tmc5130] that
    drives a Trinamic TMC5130 through a [trinamicDriver.TrinamicDriver].

    Numbers.  Python's [int] and [float] values are embedded as exact
    rationals ([Q]); [round] and [int] are the conversions to integers
    ([Z]).  The rounding error of binary64 arithmetic, its overflow and its
    underflow are outside this model.  Where a property is about the very
    integer that a float computation yields (the target that [goto] writes
    to XTARGET), the computation is embedded a second time on Python's own
    numbers, ints and binary64 floats (module [Binary64], [goto_binary64]).

    Effects.  Every method threads a [state]: the object [self] and the
    [world] around it (the chip behind the bus, the pigpio daemon, and the
    chronological trace of what the program did to them).  A method call
    ends in one of three ways: it returns, it raises, or it is still
    looping when the fuel given to its [while] loops is used up. *)

From Stdlib Require Import ZArith QArith Qround Qabs Lia Lqa List Ascii.
From Stdlib Require Import SpecFloat.
From stdpp Require Import gmap strings list fin_maps.
Import ListNotations.

Local Open Scope string_scope.
Local Open Scope Z_scope.
Local Open Scope list_scope.

(** ** Python numbers *)

Module Py.

(** [round(x)] with one argument: the nearest integer, a tie going to the
    even neighbour. *)
Definition round (x : Q) : Z :=
  let f := Qfloor x in
  let r := (x - inject_Z f)%Q in
  match (r ?= 1 # 2)%Q with
  | Lt => f
  | Gt => f + 1
  | Eq => if Z.even f then f else f + 1
  end.

(** [int(x)]: the fractional part is dropped, towards zero. *)
Definition int (x : Q) : Z := Z.quot (Qnum x) (Zpos (Qden x)).

(** [n] is an integer nearest to [x]. *)
Definition nearest (x : Q) (n : Z) : Prop :=
  (Qabs (x - inject_Z n) <= 1 # 2)%Q.

(** [x] has no fractional part. *)
Definition integral (x : Q) : Prop := exists n : Z, (x == inject_Z n)%Q.

Inductive exc : Type :=
| NameError (name : string)
| KeyError (key : string)
| ZeroDivisionError
| AssertionError
| TypeError
| ValueError
| OverflowError
| ArgumentMismatch
| SystemExit (code : Z).

(** The end of a call. *)
Inductive outcome (A : Type) : Type :=
| Ret (a : A)
| Raise (e : exc)
| Looping.

Arguments Ret {A} a.
Arguments Raise {A} e.
Arguments Looping {A}.

(** [x / y] on floats. *)
Definition div (x y : Q) : outcome Q :=
  if Qeq_bool y 0 then Raise ZeroDivisionError else Ret (x / y)%Q.

(** [d[k]] on a dict. *)
Definition getitem {V : Type} (d : gmap string V) (k : string) : outcome V :=
  match d !! k with
  | Some v => Ret v
  | None => Raise (KeyError k)
  end.

(** [k in d] on a dict. *)
Definition contains {V : Type} (k : string) (d : gmap string V) : bool :=
  bool_decide (is_Some (d !! k)).

End Py.

Export Py(exc(..), outcome(..)).

(** ** Python numbers as they are: ints and binary64 floats *)

Module Binary64.

(** A binary64 float, with the operations of IEEE 754 (53 bits of
    precision, exponents below 1024, round to nearest even). *)
Definition float : Type := spec_float.

Definition fmul : float -> float -> float := SFmul 53 1024.
Definition fdiv : float -> float -> float := SFdiv 53 1024.

(** The float nearest to the integer [n], possibly an infinity. *)
Definition normalize (n : Z) : float := binary_normalize 53 1024 n 0 false.

(** A Python number. *)
Inductive number : Type :=
| Int (n : Z)
| Float (x : float).

(** The conversion of an int operand to float: the nearest float,
    [OverflowError] when the int is beyond the range. *)
Definition of_int (n : Z) : outcome float :=
  match normalize n with
  | S754_infinity _ => Raise OverflowError
  | x => Ret x
  end.

(** [a * b]: exact on two ints; otherwise the binary64 product, an int
    operand being converted first. *)
Definition mul (a b : number) : outcome number :=
  match a, b with
  | Int m, Int n => Ret (Int (m * n))
  | Int m, Float y =>
      match of_int m with
      | Ret x => Ret (Float (fmul x y))
      | Raise e => Raise e
      | Looping => Looping
      end
  | Float x, Int n =>
      match of_int n with
      | Ret y => Ret (Float (fmul x y))
      | Raise e => Raise e
      | Looping => Looping
      end
  | Float x, Float y => Ret (Float (fmul x y))
  end.

(** The exact value of a finite float: its mantissa times two to its
    exponent, with its sign (0 for a zero, an infinity or a NaN). *)
Definition exact (x : float) : Q :=
  match x with
  | S754_finite s m e =>
      let a := match e with
               | Z0 => Zpos m # 1
               | Zpos p => (Zpos m * 2 ^ Zpos p) # 1
               | Zneg p => Zpos m # (2 ^ p)%positive
               end in
      if s then (- a)%Q else a
  | _ => 0%Q
  end.

(** The value of a number; an infinity and a NaN have none. *)
Definition value (a : number) : option Q :=
  match a with
  | Int n => Some (inject_Z n)
  | Float S754_nan => None
  | Float (S754_infinity _) => None
  | Float x => Some (exact x)
  end.

(** [int(a)]: the int itself; a float with its fractional part dropped,
    [ValueError] for a NaN, [OverflowError] for an infinity. *)
Definition int (a : number) : outcome Z :=
  match a with
  | Int n => Ret n
  | Float S754_nan => Raise ValueError
  | Float (S754_infinity _) => Raise OverflowError
  | Float x => Ret (Py.int (exact x))
  end.

(** The float of a decimal literal [a/b] whose numerator and denominator
    are exact in binary64 (4.35 is [decimal 435 100]); also the true
    division of two such ints. *)
Definition decimal (a b : Z) : float := fdiv (normalize a) (normalize b).

End Binary64.

(** ** The world around the program *)

(** A pigpio handle; the program only asks whether it is connected. *)
Record pi : Type := { connected : bool }.

(** What the program does to the outside, in the order it does it. *)
Inductive event : Type :=
| LogCritical (msg : string)
| NewTrinamicDriver (clockfrequ : Q) (datarate drvenpin spiChannel : Z)
| ReadWriteMultiple (regs : list (string * Z)) (actions : string)
| WriteInt (name : string) (value : Z)
| ReadInt (name : string) (value : Z)
| EnableOutput (enabled : bool)
| Sleep (seconds : Q)
| Print (format : string) (args : list Q)
| DriverClose
| PigpioStop.

(** The chip is observed through the bus only.  [chip_reg n r] is what
    register [r] holds when the [n]-th bus batch reads it, [chip_status n]
    the status byte that batch brings back; [tick] counts the batches done.
    [output] is the level of the motor-driver enable line. *)
Record world : Type := {
  pigpio_pi : pi;
  at_position : Z;
  chip_reg : nat -> string -> Z;
  chip_status : nat -> Z;
  tick : nat;
  output : bool;
  trace : list event
}.

(** Modelled from the spec: the state of [trinamicDriver.TrinamicDriver]
    (module [trinamicDriver] is not part of the sources): the cache of the
    last value written to or read from each register, the status byte of
    the latest batch, and the chip definition's mask of the status flag
    'at position' ([motordef['statusNames']['at position']]). *)
Record TrinamicDriver : Type := {
  lastwritten : gmap string Z;
  status : Z;
  statusNames_at_position : Z
}.

(** The object [self] of class [tmc5130]. *)
Record tmc5130 : Type := {
  pg : option pi;
  mypio : bool;
  settings : gmap string Q;
  uSC : Q;
  clockfrequ : Q;
  ustepsPerRev : Q;
  tconst : Q;
  maxV : Z;
  md : TrinamicDriver
}.

Record state : Type := { self : tmc5130; env : world }.

(** An object before [__init__] has assigned anything.  Every method reads
    an attribute only after [__init__] has assigned it. *)
Definition blank : tmc5130 :=
  {| pg := None; mypio := false; settings := ∅; uSC := 0; clockfrequ := 0;
     ustepsPerRev := 0; tconst := 0; maxV := 0;
     md := {| lastwritten := ∅; status := 0; statusNames_at_position := 0 |} |}.

(** ** Calls: state passing with exceptions and fuel *)

Definition M (A : Type) : Type := state -> outcome A * state.

#[export] Instance M_ret : MRet M := fun A a st => (Ret a, st).

#[export] Instance M_bind : MBind M := fun A B k m st =>
  match m st with
  | (Ret a, st') => k a st'
  | (Raise e, st') => (Raise e, st')
  | (Looping, st') => (Looping, st')
  end.

Definition lift {A : Type} (o : outcome A) : M A := fun st => (o, st).
Definition raise {A : Type} (e : exc) : M A := lift (Raise e).
Definition looping {A : Type} : M A := lift Looping.
Definition get_self : M tmc5130 := fun st => (Ret (self st), st).
Definition get_env : M world := fun st => (Ret (env st), st).
Definition put_self (o : tmc5130) : M unit :=
  fun st => (Ret tt, {| self := o; env := env st |}).
Definition put_env (w : world) : M unit :=
  fun st => (Ret tt, {| self := self st; env := w |}).

Definition with_trace (w : world) (t : list event) : world :=
  {| pigpio_pi := pigpio_pi w; at_position := at_position w;
     chip_reg := chip_reg w; chip_status := chip_status w;
     tick := tick w; output := output w; trace := t |}.

Definition with_output (w : world) (b : bool) : world :=
  {| pigpio_pi := pigpio_pi w; at_position := at_position w;
     chip_reg := chip_reg w; chip_status := chip_status w;
     tick := tick w; output := b; trace := trace w |}.

Definition next_tick (w : world) : world :=
  {| pigpio_pi := pigpio_pi w; at_position := at_position w;
     chip_reg := chip_reg w; chip_status := chip_status w;
     tick := S (tick w); output := output w; trace := trace w |}.

Definition emit (e : event) : M unit :=
  w ← get_env; put_env (with_trace w (trace w ++ [e])).

Definition with_md (o : tmc5130) (d : TrinamicDriver) : tmc5130 :=
  {| pg := pg o; mypio := mypio o; settings := settings o; uSC := uSC o;
     clockfrequ := clockfrequ o; ustepsPerRev := ustepsPerRev o;
     tconst := tconst o; maxV := maxV o; md := d |}.

Definition with_maxV (o : tmc5130) (v : Z) : tmc5130 :=
  {| pg := pg o; mypio := mypio o; settings := settings o; uSC := uSC o;
     clockfrequ := clockfrequ o; ustepsPerRev := ustepsPerRev o;
     tconst := tconst o; maxV := v; md := md o |}.

Definition with_ustepsPerRev (o : tmc5130) (u : Q) : tmc5130 :=
  {| pg := pg o; mypio := mypio o; settings := settings o; uSC := uSC o;
     clockfrequ := clockfrequ o; ustepsPerRev := u;
     tconst := tconst o; maxV := maxV o; md := md o |}.

Definition with_settings (o : tmc5130) (s : gmap string Q) : tmc5130 :=
  {| pg := pg o; mypio := mypio o; settings := s; uSC := uSC o;
     clockfrequ := clockfrequ o; ustepsPerRev := ustepsPerRev o;
     tconst := tconst o; maxV := maxV o; md := md o |}.

Definition with_pg (o : tmc5130) (p : option pi) : tmc5130 :=
  {| pg := p; mypio := mypio o; settings := settings o; uSC := uSC o;
     clockfrequ := clockfrequ o; ustepsPerRev := ustepsPerRev o;
     tconst := tconst o; maxV := maxV o; md := md o |}.

Definition time_sleep (seconds : Q) : M unit := emit (Sleep seconds).
Definition print (format : string) (args : list Q) : M unit :=
  emit (Print format args).

(** ** The driver underneath *)

Module Driver.

(** Modelled from the spec: the access tags of a batch (4.2, step 1), one
    tag per operation; a tag string of any other length is a mismatch. *)
Definition tags (n : nat) (actions : string) : option (list ascii) :=
  let l := String.list_ascii_of_string actions in
  if (length l =? n)%nat then Some l else None.

(** Modelled from the spec: each register of a batch with the tag that
    applies to it, in lockstep. *)
Definition tagged (regs : list (string * Z)) (actions : string)
  : option (list (string * ascii)) :=
  zip (map fst regs) <$> tags (length regs) actions.

(** Modelled from the spec: what one operation of a batch leaves in the
    result and in the cache (4.2, step 5), the value read from the chip for
    a read, the value given otherwise. *)
Definition result (w : world) (op : string * Z) (tag : ascii) : string * Z :=
  if Ascii.eqb tag "R" then (op.1, chip_reg w (tick w) op.1) else op.

(** Modelled from the spec: the results of a whole batch, in order. *)
Definition results (w : world) (ops : list (string * Z)) (ts : list ascii)
  : list (string * Z) :=
  zip_with (result w) ops ts.

(** Modelled from the spec: the cache [lastwritten] after a batch. *)
Definition cache (rs : list (string * Z)) (lw : gmap string Z) : gmap string Z :=
  foldl (fun m r => <[r.1 := r.2]> m) lw rs.

(** Modelled from the spec: the driver after a batch, with the new cache
    and the status byte of the batch (4.2, step 6). *)
Definition with_batch (d : TrinamicDriver) (w : world) (rs : list (string * Z))
  : TrinamicDriver :=
  {| lastwritten := cache rs (lastwritten d);
     status := chip_status w (tick w);
     statusNames_at_position := statusNames_at_position d |}.

(** Modelled from the spec: [TrinamicDriver.readWriteMultiple], the batched
    register engine (4.2).  The tags are checked against the operations
    before any bus activity ([ArgumentMismatch]); each result goes to the
    result mapping, which is returned, and to the cache; the status byte is
    the one of this batch.  The bus transport is a collaborator outside the
    model: a transfer that fails on the wire is not represented. *)
Definition readWriteMultiple (regs : list (string * Z)) (actions : string)
  : M (list (string * Z)) :=
  match tags (length regs) actions with
  | None => raise ArgumentMismatch
  | Some ts =>
      emit (ReadWriteMultiple regs actions);;
      o ← get_self; w ← get_env;
      let rs := results w regs ts in
      put_self (with_md o (with_batch (md o) w rs));;
      put_env (next_tick w);;
      mret rs
  end.

(** Modelled from the spec: [TrinamicDriver.writeInt] (4.3), a batch of
    one written register. *)
Definition writeInt (name : string) (value : Z) : M unit :=
  emit (WriteInt name value);;
  o ← get_self; w ← get_env;
  put_self (with_md o (with_batch (md o) w [(name, value)]));;
  put_env (next_tick w).

(** Modelled from the spec: [TrinamicDriver.readInt] (4.3), a batch of one
    read register. *)
Definition readInt (name : string) : M Z :=
  w ← get_env;
  let v := chip_reg w (tick w) name in
  emit (ReadInt name v);;
  o ← get_self; w ← get_env;
  put_self (with_md o (with_batch (md o) w [(name, v)]));;
  put_env (next_tick w);;
  mret v.

(** Modelled from the spec: [TrinamicDriver.enableOutput] (4.3), the
    motor-driver enable line; not a register operation. *)
Definition enableOutput (enabled : bool) : M unit :=
  emit (EnableOutput enabled);;
  w ← get_env; put_env (with_output w enabled).

(** Modelled from the spec: the constructor of [TrinamicDriver]; the chip
    definition [tmc5130regs.tmc5130] brings the 'at position' mask. *)
Definition new (clockfrequ : Q) (datarate drvenpin spiChannel : Z)
  : M TrinamicDriver :=
  emit (NewTrinamicDriver clockfrequ datarate drvenpin spiChannel);;
  w ← get_env;
  mret {| lastwritten := ∅; status := 0;
          statusNames_at_position := at_position w |}.

(** Modelled from the spec: [TrinamicDriver.close], the release of the bus
    handle. *)
Definition close : M unit := emit DriverClose.

End Driver.

(** ** Module level of chipdrive.py *)

Definition motor28BYJ_48 : gmap string Q :=
  {[ "stepsPerRev" := (2048 / 12)%Q; "maxrpm" := 220%Q ]}.

Definition regorder : list string := ["stepsPerRev"; "maxrpm"].

(** What a global name can be bound to, as far as [in] can tell. *)
Inductive value : Type :=
| VDict (d : gmap string Q)
| VTuple (items : list string)
| VObject.

(** The names bound at module level once the module is loaded: the imports,
    the two constants and the class. *)
Definition module_globals : list (string * value) :=
  [("logging", VObject); ("pigpio", VObject); ("time", VObject);
   ("sys", VObject); ("OrderedDict", VObject); ("trinamicDriver", VObject);
   ("tmc5130regs", VObject); ("motor28BYJ_48", VDict motor28BYJ_48);
   ("regorder", VTuple regorder); ("tmc5130", VObject)].

(** The names of Python's [builtins] module. *)
Definition builtins : list string :=
  ["abs"; "aiter"; "all"; "anext"; "any"; "ascii"; "bin"; "bool";
   "breakpoint"; "bytearray"; "bytes"; "callable"; "chr"; "classmethod";
   "compile"; "complex"; "copyright"; "credits"; "delattr"; "dict"; "dir";
   "divmod"; "enumerate"; "eval"; "exec"; "exit"; "filter"; "float";
   "format"; "frozenset"; "getattr"; "globals"; "hasattr"; "hash"; "help";
   "hex"; "id"; "input"; "int"; "isinstance"; "issubclass"; "iter"; "len";
   "license"; "list"; "locals"; "map"; "max"; "memoryview"; "min"; "next";
   "object"; "oct"; "open"; "ord"; "pow"; "print"; "property"; "quit";
   "range"; "repr"; "reversed"; "round"; "set"; "setattr"; "slice";
   "sorted"; "staticmethod"; "str"; "sum"; "super"; "tuple"; "type"; "vars";
   "zip"; "__import__"; "__build_class__"; "__debug__"; "__doc__";
   "__loader__"; "__name__"; "__package__"; "__spec__";
   "True"; "False"; "None"; "NotImplemented"; "Ellipsis";
   "ArithmeticError"; "AssertionError"; "AttributeError"; "BaseException";
   "BaseExceptionGroup"; "BlockingIOError"; "BrokenPipeError"; "BufferError";
   "BytesWarning"; "ChildProcessError"; "ConnectionAbortedError";
   "ConnectionError"; "ConnectionRefusedError"; "ConnectionResetError";
   "DeprecationWarning"; "EOFError"; "EncodingWarning"; "EnvironmentError";
   "Exception"; "ExceptionGroup"; "FileExistsError"; "FileNotFoundError";
   "FloatingPointError"; "FutureWarning"; "GeneratorExit"; "IOError";
   "ImportError"; "ImportWarning"; "IndentationError"; "IndexError";
   "InterruptedError"; "IsADirectoryError"; "KeyError"; "KeyboardInterrupt";
   "LookupError"; "MemoryError"; "ModuleNotFoundError"; "NameError";
   "NotADirectoryError"; "NotImplementedError"; "OSError"; "OverflowError";
   "PendingDeprecationWarning"; "PermissionError"; "ProcessLookupError";
   "RecursionError"; "ReferenceError"; "ResourceWarning"; "RuntimeError";
   "RuntimeWarning"; "StopAsyncIteration"; "StopIteration"; "SyntaxError";
   "SyntaxWarning"; "SystemError"; "SystemExit"; "TabError"; "TimeoutError";
   "TypeError"; "UnboundLocalError"; "UnicodeDecodeError";
   "UnicodeEncodeError"; "UnicodeError"; "UnicodeTranslateError";
   "UnicodeWarning"; "UserWarning"; "ValueError"; "Warning";
   "ZeroDivisionError"].

Fixpoint assoc {V : Type} (l : list (string * V)) (k : string) : option V :=
  match l with
  | [] => None
  | (k', v) :: l' => if String.eqb k' k then Some v else assoc l' k
  end.

(** Reading a name that the function does not bind: the module's globals
    first, the builtins next, [NameError] if neither has it. *)
Definition load_global (name : string) : outcome value :=
  match assoc module_globals name with
  | Some v => Ret v
  | None =>
      if existsb (String.eqb name) builtins then Ret VObject
      else Raise (NameError name)
  end.

(** [k in v]. *)
Definition py_in (k : string) (v : value) : outcome bool :=
  match v with
  | VDict d => Ret (Py.contains k d)
  | VTuple items => Ret (existsb (String.eqb k) items)
  | VObject => Raise TypeError
  end.

(** [d[k]] on a dict whose order matters. *)
Definition item (d : list (string * Z)) (k : string) : outcome Z :=
  match assoc d k with
  | Some v => Ret v
  | None => Raise (KeyError k)
  end.

(** ** class tmc5130 *)

Definition assign (f : tmc5130 -> tmc5130) : M unit :=
  o ← get_self; put_self (f o).

Definition with_base (o : tmc5130) (p : pi) (mine : bool) : tmc5130 :=
  {| pg := Some p; mypio := mine; settings := settings o; uSC := uSC o;
     clockfrequ := clockfrequ o; ustepsPerRev := ustepsPerRev o;
     tconst := tconst o; maxV := maxV o; md := md o |}.

Definition with_uSC (o : tmc5130) (u : Q) : tmc5130 :=
  {| pg := pg o; mypio := mypio o; settings := settings o; uSC := u;
     clockfrequ := clockfrequ o; ustepsPerRev := ustepsPerRev o;
     tconst := tconst o; maxV := maxV o; md := md o |}.

Definition with_clockfrequ (o : tmc5130) (c : Q) : tmc5130 :=
  {| pg := pg o; mypio := mypio o; settings := settings o; uSC := uSC o;
     clockfrequ := c; ustepsPerRev := ustepsPerRev o;
     tconst := tconst o; maxV := maxV o; md := md o |}.

Definition with_tconst (o : tmc5130) (t : Q) : tmc5130 :=
  {| pg := pg o; mypio := mypio o; settings := settings o; uSC := uSC o;
     clockfrequ := clockfrequ o; ustepsPerRev := ustepsPerRev o;
     tconst := t; maxV := maxV o; md := md o |}.

(** [RPMtoVREG]: the register value (e.g. VMAX) for a given rpm. *)
Definition RPMtoVREG (self : tmc5130) (rpm : Q) : outcome Q :=
  Py.div (rpm * ustepsPerRev self / 60) (tconst self).

Definition regsettings (maxV : Z) : list (string * Z) :=
  [("GSTAT", 0); ("GCONF", 4); ("CHOPCONF", 0x000100C3);
   ("IHOLD_IRUN", 0x00080F0A); ("TPOWERDOWN", 0x0000000A);
   ("TPWMTHRS", 0x000001F4); ("VSTART", 1); ("A1", 1500); ("V1", 100000);
   ("AMAX", 1000); ("VMAX", maxV); ("DMAX", 1100); ("D1", 600);
   ("VSTOP", 10); ("RAMPMODE", 0)].

Definition regactions : string := "RUWWWWWWWWWWWWW".

(** [__init__]; the logging set-up is left out.  [clockfrequ0] and
    [settings0] are the arguments [clockfrequ] and [settings]. *)
Definition __init__ (clockfrequ0 : Q) (settings0 : gmap string Q)
    (pigio : option pi) : M unit :=
  w ← get_env;
  let '(p, mine) := match pigio with
                    | None => (pigpio_pi w, true)
                    | Some p => (p, false)
                    end in
  assign (fun o => with_base o p mine);;
  if negb (connected p) then
    emit (LogCritical "pigpio daemon does not appear to be running");;
    raise (SystemExit 1)
  else
    assign (fun o => with_settings o settings0);;
    assign (fun o => with_uSC o 256);;
    assign (fun o => with_clockfrequ o clockfrequ0);;
    o ← get_self;
    spr ← lift (Py.getitem (settings o) "stepsPerRev");
    assign (fun o => with_ustepsPerRev o (spr * uSC o));;
    assign (fun o => with_tconst o (clockfrequ o / inject_Z (2 ^ 24)));;
    o ← get_self;
    rpm ← lift (Py.getitem (settings o) "maxrpm");
    v ← lift (RPMtoVREG o rpm);
    assign (fun o => with_maxV o (Py.round v));;
    o ← get_self;
    d ← Driver.new (clockfrequ o) 1000000 12 1;
    assign (fun o => with_md o d);;
    o ← get_self;
    let regsettings := regsettings (maxV o) in
    if (length regsettings =? String.length regactions)%nat then
      currently ← Driver.readWriteMultiple regsettings regactions;
      mret tt
    else raise AssertionError.

(** The call [tmc5130(clockfrequ, settings, pigio)]: an object comes out
    only if [__init__] returns. *)
Definition construct (clockfrequ0 : Q) (settings0 : gmap string Q)
    (pigio : option pi) (w : world) : outcome tmc5130 * world :=
  match __init__ clockfrequ0 settings0 pigio {| self := blank; env := w |} with
  | (Ret _, st) => (Ret (self st), env st)
  | (Raise e, st) => (Raise e, env st)
  | (Looping, st) => (Looping, env st)
  end.

(** [self.settings[k] = v].  The dict is the one the caller passed to
    [__init__] (by default the module's [motor28BYJ_48]); the sharing is not
    modelled, the properties below are about runs that never get here. *)
Definition with_setting (o : tmc5130) (k : string) (v : Q) : tmc5130 :=
  with_settings o (<[k := v]> (settings o)).

(** [updateSettings].  The first test reads the name [upates], which the
    function does not bind. *)
Definition updateSettings (updates : gmap string Q) : M unit :=
  let pendregs : list string := [] in
  upates ← lift (load_global "upates");
  c ← lift (py_in "stepsPerRev" upates);
  pendregs ←
    (if c : bool then
       v ← lift (Py.getitem updates "stepsPerRev");
       assign (fun o => with_setting o "stepsPerRev" v);;
       o ← get_self;
       spr ← lift (Py.getitem (settings o) "stepsPerRev");
       assign (fun o => with_ustepsPerRev o (spr * uSC o));;
       o ← get_self;
       rpm ← lift (Py.getitem (settings o) "maxrpm");
       r ← lift (RPMtoVREG o rpm);
       assign (fun o => with_maxV o (Py.round r));;
       o ← get_self;
       if Py.contains "VMAX" (lastwritten (md o)) then
         last ← lift (Py.getitem (lastwritten (md o)) "VMAX");
         if last >? maxV o then mret (pendregs ++ ["VMAX"]) else mret pendregs
       else mret pendregs
     else mret pendregs);
  if Py.contains "maxrpm" updates then
    v ← lift (Py.getitem updates "maxrpm");
    assign (fun o => with_setting o "maxrpm" v);;
    o ← get_self;
    rpm ← lift (Py.getitem (settings o) "maxrpm");
    r ← lift (RPMtoVREG o rpm);
    assign (fun o => with_maxV o (Py.round r));;
    o ← get_self;
    if Py.contains "VMAX" (lastwritten (md o)) then
      last ← lift (Py.getitem (lastwritten (md o)) "VMAX");
      if (last >? maxV o) && negb (existsb (String.eqb "VMAX") pendregs)
      then let pendregs := (pendregs ++ ["VMAX"]) in mret tt
      else mret tt
    else mret tt
  else mret tt.

Definition reads0 : list (string * Z) :=
  [("VACTUAL", 0); ("XACTUAL", 0); ("XTARGET", 0); ("GSTAT", 0);
   ("RAMPSTAT", 0)].

(** The [while] loop of [wait_reached]; [fuel] bounds the runs of its body.
    [reads] is the dict built before the loop; what [readWriteMultiple]
    returns is dropped, as in the source. *)
Fixpoint wait_reached_loop (fuel : nat) (ticktime : Q)
    (reads : list (string * Z)) : M (list (string * Z)) :=
  o ← get_self;
  if Z.land (status (md o)) (statusNames_at_position (md o)) =? 0 then
    match fuel with
    | O => looping
    | S fuel' =>
        x ← lift (item reads "XACTUAL");
        location ← lift (Py.div (inject_Z x) (ustepsPerRev o));
        velocity ← lift (item reads "VACTUAL");
        print "loc    {location:9.2f}   chipVelocity  {velocity:9.2f}"
              [location; inject_Z velocity];;
        r ← lift (item reads "RAMPSTAT");
        print "ramp status: %s" [inject_Z r];;
        time_sleep ticktime;;
        Driver.readWriteMultiple reads "R";;
        wait_reached_loop fuel' ticktime reads
    end
  else mret reads.

Definition wait_reached (fuel : nat) (ticktime : Q) : M unit :=
  time_sleep ticktime;;
  Driver.readWriteMultiple reads0 "R";;
  o ← get_self;
  print "check status %x" [inject_Z (statusNames_at_position (md o))];;
  reads ← wait_reached_loop fuel ticktime reads0;
  r ← lift (item reads "RAMPSTAT");
  x ← lift (item reads "XACTUAL");
  o ← get_self;
  location ← lift (Py.div (inject_Z x) (ustepsPerRev o));
  print "target %9.2f reached, status %x, ramp status %s"
        [location; inject_Z (status (md o)); inject_Z r].

(** The [while] loop of [waitStop]; [fuel] bounds the reads of VACTUAL. *)
Fixpoint waitStop_loop (fuel : nat) (ticktime : Q) : M unit :=
  match fuel with
  | O => looping
  | S fuel' =>
      v ← Driver.readInt "VACTUAL";
      if v =? 0 then mret tt
      else time_sleep ticktime;; waitStop_loop fuel' ticktime
  end.

Definition waitStop (fuel : nat) (ticktime : Q) : M unit :=
  time_sleep ticktime;;
  waitStop_loop fuel ticktime.

Definition goto (fuel : nat) (targetpos : Q) (wait : bool) : M unit :=
  Driver.enableOutput true;;
  o ← get_self;
  Driver.writeInt "XTARGET" (Py.int (ustepsPerRev o * targetpos));;
  (if wait then wait_reached fuel (1 # 2) else mret tt);;
  Driver.enableOutput false.

(** [int(self.ustepsPerRev*targetpos)], the argument of [writeInt] in
    [goto], on Python's numbers. *)
Definition xtarget (ustepsPerRev targetpos : Binary64.number) : outcome Z :=
  match Binary64.mul ustepsPerRev targetpos with
  | Ret p => Binary64.int p
  | Raise e => Raise e
  | Looping => Looping
  end.

(** [goto] with [self.ustepsPerRev] and [targetpos] as the numbers Python
    holds (the session record keeps exact values only, so the attribute is
    passed in). *)
Definition goto_binary64 (fuel : nat) (ustepsPerRev targetpos : Binary64.number)
    (wait : bool) : M unit :=
  Driver.enableOutput true;;
  v ← lift (xtarget ustepsPerRev targetpos);
  Driver.writeInt "XTARGET" v;;
  (if wait then wait_reached fuel (1 # 2) else mret tt);;
  Driver.enableOutput false.

(** [self.ustepsPerRev] as [__init__] computes it,
    [settings['stepsPerRev']*self.uSC], on Python's numbers. *)
Definition ustepsPerRev_binary64 (stepsPerRev : Binary64.number)
  : outcome Binary64.number :=
  Binary64.mul stepsPerRev (Binary64.Int 256).

(** The stepsPerRev of [motor28BYJ_48], [2048/12], on Python's numbers. *)
Definition stepsPerRev_28BYJ_48 : Binary64.number :=
  Binary64.Float (Binary64.decimal 2048 12).

Definition stop (fuel : nat) : M unit :=
  x ← Driver.readInt "XACTUAL";
  Driver.writeInt "XTARGET" x;;
  o ← get_self;
  Driver.writeInt "VMAX" (maxV o);;
  Driver.writeInt "RAMPMODE" 0;;
  waitStop fuel (1 # 10);;
  Driver.enableOutput false.

Definition close : M unit :=
  Driver.close;;
  o ← get_self;
  (if mypio o then emit PigpioStop else mret tt);;
  assign (fun o => with_pg o None).

(** ** A bench to run the program on *)

(** A connected daemon and a chip whose motor is at position 778 and slows
    down by one velocity unit per bus batch, standing still from the sixth
    batch on. *)
Definition bench : world :=
  {| pigpio_pi := {| connected := true |};
     at_position := 32;
     chip_reg := fun n r =>
       if String.eqb r "VACTUAL" then Z.of_nat (6 - n) else 778;
     chip_status := fun n => if (n <? 9)%nat then 0 else 32;
     tick := 0; output := false; trace := [] |}.

(** [tmc5130()] with the default arguments, on the bench. *)
Definition state0 : state :=
  match construct 15000000 motor28BYJ_48 None bench with
  | (Ret o, w) => {| self := o; env := w |}
  | (_, w) => {| self := blank; env := w |}
  end.

Definition session0 : tmc5130 := self state0.

(** * Vocabulary of the properties *)

(** A bus batch, as opposed to logging, sleeping, printing and the enable
    line. *)
Definition register_transaction (e : event) : bool :=
  match e with
  | ReadWriteMultiple _ _ | WriteInt _ _ | ReadInt _ _ => true
  | _ => false
  end.

(** Reading or sleeping: what a poll loop does. *)
Definition polling (e : event) : bool :=
  match e with
  | ReadWriteMultiple _ _ | ReadInt _ _ | Sleep _ => true
  | _ => false
  end.

(** The pigpio handle a construction uses: the one passed in, or a new one
    from [pigpio.pi()]. *)
Definition handle (pigio : option pi) (w : world) : pi :=
  match pigio with
  | None => pigpio_pi w
  | Some p => p
  end.

(** [emits P m]: whatever the state, [m] only adds events to the trace, and
    all of them satisfy [P]. *)
Definition emits {A : Type} (P : event -> Prop) (m : M A) : Prop :=
  forall st, exists evs,
    trace (env (m st).2) = trace (env st) ++ evs /\ Forall P evs.

(** The first two steps of [goto]. *)
Definition goto_head (targetpos : Q) : M unit :=
  Driver.enableOutput true;;
  o ← get_self;
  Driver.writeInt "XTARGET" (Py.int (ustepsPerRev o * targetpos)).

(** What the chip answers to a read of VACTUAL in batch [n]. *)
Definition vactual (w : world) (n : nat) : Z := chip_reg w n "VACTUAL".

(** [k] reads of VACTUAL from batch [n] on, each followed by a sleep. *)
Definition polls (w : world) (ticktime : Q) (n k : nat) : list event :=
  flat_map (fun i => [ReadInt "VACTUAL" (vactual w (n + i)); Sleep ticktime])
           (seq 0 k).

(** One turn of the loop of [waitStop] that does not leave it. *)
Definition polled (ticktime : Q) (st : state) : state :=
  ((Driver.readInt "VACTUAL";; time_sleep ticktime) st).2.

(** The first read of zero is the [k]-th one, counted from batch [n]. *)
Definition first_zero (w : world) (n k : nat) : Prop :=
  (forall i, (i < k)%nat -> vactual w (n + i) <> 0) /\ vactual w (n + k) = 0.

(** The state after one step of the driver: a read, a write, a sleep, a
    switch of the enable line. *)
Definition was_read (name : string) (st : state) : state :=
  (Driver.readInt name st).2.
Definition written (name : string) (value : Z) (st : state) : state :=
  (Driver.writeInt name value st).2.
Definition slept (seconds : Q) (st : state) : state :=
  (time_sleep seconds st).2.
Definition switched (enabled : bool) (st : state) : state :=
  (Driver.enableOutput enabled st).2.

(** The state in which [stop] enters its loop. *)
Definition stop_polling (st : state) : state :=
  let x := chip_reg (env st) (tick (env st)) "XACTUAL" in
  slept (1 # 10)
    (written "RAMPMODE" 0
       (written "VMAX" (maxV (self st))
          (written "XTARGET" x (was_read "XACTUAL" st)))).

(** [quiet m]: [m] leaves the enable line as it found it, however it
    ends. *)
Definition quiet {A : Type} (m : M A) : Prop :=
  forall st, output (env (m st).2) = output (env st).

(** An event that only observes: a sleep, a print, or a batch whose single
    tag is 'R'. *)
Definition observing (e : event) : Prop :=
  match e with
  | Sleep _ | Print _ _ => True
  | ReadWriteMultiple _ actions => actions = "R"
  | _ => False
  end.

(** * Properties *)

(** Running the state-passing plumbing of a call on a symbolic state. *)
Ltac run :=
  cbv beta iota delta
    [mbind M_bind mret M_ret get_self get_env put_self put_env assign emit
     lift raise looping time_sleep print];
  cbn [self env fst snd].

(** Reading the fields of an updated object or world. *)
Ltac fields :=
  cbn [self env pg mypio settings uSC clockfrequ ustepsPerRev tconst maxV md
       with_base with_settings with_uSC with_clockfrequ with_ustepsPerRev
       with_tconst with_maxV with_md with_pg with_setting
       trace tick output chip_reg chip_status at_position pigpio_pi
       with_trace with_output next_tick
       lastwritten status statusNames_at_position].

(** ** updateSettings *)

(** C10.  Whatever [updates] is and whatever the state of the session,
    [updateSettings] raises [NameError] for the name [upates] and leaves the
    whole state as it was: the settings, [ustepsPerRev], [maxV] and the
    cache of the driver are those of before the call, and the trace has no
    new event, so no bus transaction was issued. *)
Theorem updateSettings_raises_NameError (updates : gmap string Q) (st : state) :
  updateSettings updates st = (Raise (NameError "upates"), st).
Proof.
  assert (Hname : load_global "upates" = Raise (NameError "upates")).
  { unfold load_global. reflexivity. }
  unfold updateSettings. cbv zeta.
  unfold mbind at 1, M_bind at 1. rewrite Hname. reflexivity.
Qed.

(** C1 at the input of the claim.  The session built with maxrpm=220 has
    [maxV] = 179180 and VMAX cached at that value; round(100 * ustepsPerRev
    / 60 / tconst) is 81445, strictly smaller; but
    [updateSettings({'maxrpm': 100})] raises [NameError] and [maxV] stays
    179180. *)
Theorem updateSettings_maxrpm_100_fails :
  construct 15000000 motor28BYJ_48 None bench = (Ret session0, env state0) /\
  motor28BYJ_48 !! "maxrpm" = Some 220%Q /\
  maxV session0 = 179180 /\
  lastwritten (md session0) !! "VMAX" = Some 179180 /\
  (exists v, RPMtoVREG session0 100 = Ret v /\ Py.round v = 81445) /\
  (let '(r, st) := updateSettings {[ "maxrpm" := 100%Q ]} state0 in
   r = Raise (NameError "upates") /\ maxV (self st) = 179180 /\
   trace (env st) = trace (env state0)).
Proof.
  split; [vm_compute; reflexivity |].
  split; [vm_compute; reflexivity |].
  split; [vm_compute; reflexivity |].
  split; [vm_compute; reflexivity |].
  split.
  - eexists. split; vm_compute; reflexivity.
  - vm_compute. repeat split.
Qed.

(** ** Construction *)

Lemma tags_regactions :
  Driver.tags 15 regactions =
    Some (String.list_ascii_of_string "RUWWWWWWWWWWWWW").
Proof. reflexivity. Qed.

(** What a construction that yields an object went through. *)
Lemma construct_inv (clockfrequ0 : Q) (settings0 : gmap string Q)
    (pigio : option pi) (w : world) (o : tmc5130) (w' : world) :
  construct clockfrequ0 settings0 pigio w = (Ret o, w') ->
  exists spr rpm v,
    connected (handle pigio w) = true /\
    settings0 !! "stepsPerRev" = Some spr /\
    settings0 !! "maxrpm" = Some rpm /\
    Qeq_bool (clockfrequ0 / inject_Z (2 ^ 24)) 0 = false /\
    v = (rpm * (spr * 256) / 60 / (clockfrequ0 / inject_Z (2 ^ 24)))%Q /\
    settings o = settings0 /\
    clockfrequ o = clockfrequ0 /\
    ustepsPerRev o = (spr * 256)%Q /\
    tconst o = (clockfrequ0 / inject_Z (2 ^ 24))%Q /\
    maxV o = Py.round v /\
    trace w' =
      trace w ++
        [NewTrinamicDriver clockfrequ0 1000000 12 1;
         ReadWriteMultiple (regsettings (maxV o)) regactions].
Proof.
  unfold construct, __init__. run.
  destruct pigio as [p|]; cbn [handle];
    (destruct (connected _); cbn [negb]; [| run; discriminate]);
    run; fields; unfold Py.getitem;
    (destruct (settings0 !! "stepsPerRev") as [spr|]; [| discriminate]);
    run; fields;
    (destruct (settings0 !! "maxrpm") as [rpm|]; [| discriminate]);
    unfold RPMtoVREG, Py.div; fields;
    (destruct (Qeq_bool (clockfrequ0 / inject_Z (2 ^ 24)) 0); [discriminate |]);
    unfold Driver.new; run; fields;
    change (length (regsettings _) =? String.length regactions)%nat with true;
    cbv iota beta; unfold Driver.readWriteMultiple;
    change (Driver.tags (length (regsettings _)) regactions)
      with (Driver.tags 15 regactions);
    rewrite tags_regactions; run; fields;
    intros [= <- <-]; fields;
    exists spr, rpm; eexists; rewrite <- app_assoc; repeat split.
Qed.

(** C9.  When the handle is not connected, the construction ends with
    [SystemExit(1)]: no object comes out, and the only thing done to the
    world is the critical log message, so no register transaction was
    issued. *)
Theorem construct_not_connected (clockfrequ0 : Q) (settings0 : gmap string Q)
    (pigio : option pi) (w : world) :
  connected (handle pigio w) = false ->
  exists evs,
    construct clockfrequ0 settings0 pigio w =
      (Raise (SystemExit 1), with_trace w (trace w ++ evs)) /\
    evs = [LogCritical "pigpio daemon does not appear to be running"] /\
    Forall (fun e => register_transaction e = false) evs.
Proof.
  intros Hoff. eexists. split; [| split; [reflexivity |]].
  - unfold construct, __init__.
    destruct pigio as [p|]; cbn in Hoff; run; rewrite Hoff; reflexivity.
  - repeat constructor.
Qed.

Lemma construct_not_connected_witness :
  exists evs,
    construct 15000000 motor28BYJ_48 (Some {| connected := false |}) bench =
      (Raise (SystemExit 1), with_trace bench (trace bench ++ evs)) /\
    evs = [LogCritical "pigpio daemon does not appear to be running"] /\
    Forall (fun e => register_transaction e = false) evs.
Proof.
  apply (construct_not_connected 15000000 motor28BYJ_48
           (Some {| connected := false |}) bench).
  reflexivity.
Defined.

(** ** goto without waiting *)

(** C2 at a concrete input: on the bench, [goto(1, wait=False)] does not
    leave the output enabled. *)
Lemma goto_nowait_output_not_enabled :
  output (env (goto 0 1 false state0).2) <> true.
Proof. vm_compute. discriminate. Qed.

(** C2, what the code does.  [goto(targetpos, wait=False)] returns after
    three steps, none of which polls (no read, no sleep): it enables the
    output, writes XTARGET and, against the claim, disables the output
    again: the output is disabled when it returns. *)
Theorem goto_nowait_disables_output (fuel : nat) (targetpos : Q) (st : state) :
  exists st' evs,
    goto fuel targetpos false st = (Ret tt, st') /\
    trace (env st') = trace (env st) ++ evs /\
    evs =
      [EnableOutput true;
       WriteInt "XTARGET" (Py.int (ustepsPerRev (self st) * targetpos));
       EnableOutput false] /\
    Forall (fun e => polling e = false) evs /\
    output (env st') = false.
Proof.
  do 2 eexists. split; [reflexivity |]. cbn.
  rewrite <- !app_assoc. split; [reflexivity |]. split; [reflexivity |].
  split; [repeat constructor | reflexivity].
Qed.

(** ** The register settings written at construction *)

(** C4.  A construction that yields a session has done exactly two things to
    the world: it created the driver and it issued one batch.  The batch
    holds the fifteen registers in the fixed order, VMAX with the session's
    [maxV] (the rounded [RPMtoVREG] of the maxrpm setting), and the tag
    string pairs GSTAT with 'R', GCONF with 'U' and every other register
    with 'W'. *)
Theorem construct_writes_regsettings (clockfrequ0 : Q)
    (settings0 : gmap string Q) (pigio : option pi) (w : world)
    (o : tmc5130) (w' : world) :
  construct clockfrequ0 settings0 pigio w = (Ret o, w') ->
  let batch :=
    [("GSTAT", 0); ("GCONF", 4); ("CHOPCONF", 65731); ("IHOLD_IRUN", 528138);
     ("TPOWERDOWN", 10); ("TPWMTHRS", 500); ("VSTART", 1); ("A1", 1500);
     ("V1", 100000); ("AMAX", 1000); ("VMAX", maxV o); ("DMAX", 1100);
     ("D1", 600); ("VSTOP", 10); ("RAMPMODE", 0)] in
  trace w' =
    trace w ++
      [NewTrinamicDriver clockfrequ0 1000000 12 1;
       ReadWriteMultiple batch "RUWWWWWWWWWWWWW"] /\
  Driver.tagged batch "RUWWWWWWWWWWWWW" =
    Some [("GSTAT", "R"%char); ("GCONF", "U"%char); ("CHOPCONF", "W"%char);
          ("IHOLD_IRUN", "W"%char); ("TPOWERDOWN", "W"%char);
          ("TPWMTHRS", "W"%char); ("VSTART", "W"%char); ("A1", "W"%char);
          ("V1", "W"%char); ("AMAX", "W"%char); ("VMAX", "W"%char);
          ("DMAX", "W"%char); ("D1", "W"%char); ("VSTOP", "W"%char);
          ("RAMPMODE", "W"%char)] /\
  exists rpm v,
    settings0 !! "maxrpm" = Some rpm /\
    RPMtoVREG o rpm = Ret v /\
    maxV o = Py.round v.
Proof.
  intros Hc.
  destruct (construct_inv _ _ _ _ _ _ Hc)
    as (spr & rpm & v & _ & _ & Hrpm & Ht & Hv & _ & _ & Hu & Htc & Hm & Htr).
  cbv zeta. split; [exact Htr |]. split; [reflexivity |].
  exists rpm, v. split; [exact Hrpm |]. split; [| exact Hm].
  unfold RPMtoVREG, Py.div. rewrite Hu, Htc, Ht, Hv. reflexivity.
Qed.

Lemma construct_writes_regsettings_witness :
  trace (env state0) =
    trace bench ++
      [NewTrinamicDriver 15000000 1000000 12 1;
       ReadWriteMultiple (regsettings (maxV session0)) "RUWWWWWWWWWWWWW"].
Proof.
  apply (construct_writes_regsettings 15000000 motor28BYJ_48 None bench
           session0 (env state0)).
  vm_compute. reflexivity.
Defined.

(** ** RPMtoVREG *)

(** C5, as stated, fails: for the default session, [RPMtoVREG(220)] is
    1935140464885760 / 10800000000, which is not an integer, so it is not
    the quotient rounded to the nearest integer. *)
Lemma RPMtoVREG_220_not_integral :
  ~ exists v, RPMtoVREG session0 220 = Ret v /\ Py.integral v.
Proof.
  intros (v & Hv & n & Hn). vm_compute in Hv. injection Hv as <-.
  unfold Qeq in Hn. cbn in Hn. lia.
Qed.

(** C5, amended.  In a session built from clock frequency [clockfrequ0] and
    stepsPerRev [spr], [RPMtoVREG(rpm)] returns, for every [rpm], the
    quotient rpm * (spr * 256) / 60 / (clockfrequ0 / 2^24) itself: it
    multiplies back exactly.  The rounding is the caller's: [__init__]
    stores [round] of the value for maxrpm in [maxV]. *)
Theorem RPMtoVREG_exact_quotient (clockfrequ0 : Q) (settings0 : gmap string Q)
    (pigio : option pi) (w : world) (o : tmc5130) (w' : world) :
  construct clockfrequ0 settings0 pigio w = (Ret o, w') ->
  exists spr maxrpm,
    settings0 !! "stepsPerRev" = Some spr /\
    settings0 !! "maxrpm" = Some maxrpm /\
    (forall rpm, exists v,
        RPMtoVREG o rpm = Ret v /\
        (v == rpm * (spr * 256) / 60 / (clockfrequ0 / inject_Z (2 ^ 24)))%Q /\
        (v * (clockfrequ0 / inject_Z (2 ^ 24)) * 60 == rpm * (spr * 256))%Q) /\
    (exists v, RPMtoVREG o maxrpm = Ret v /\ maxV o = Py.round v).
Proof.
  intros Hc.
  destruct (construct_inv _ _ _ _ _ _ Hc)
    as (spr & rpm0 & v0 & _ & Hspr & Hrpm & Ht & Hv & _ & _ & Hu & Htc & Hm & _).
  assert (Hret : forall rpm,
             RPMtoVREG o rpm =
               Ret (rpm * (spr * 256) / 60 / (clockfrequ0 / inject_Z (2 ^ 24)))%Q).
  { intros rpm. unfold RPMtoVREG, Py.div. rewrite Hu, Htc, Ht. reflexivity. }
  exists spr, rpm0. split; [exact Hspr |]. split; [exact Hrpm |]. split.
  - intros rpm. eexists. split; [apply Hret |]. split; [reflexivity |].
    apply Qeq_bool_neq in Ht. field. split; [discriminate |].
    intros Hz. apply Ht. rewrite Hz. reflexivity.
  - exists v0. split; [rewrite Hret, Hv; reflexivity | exact Hm].
Qed.

Lemma RPMtoVREG_exact_quotient_witness :
  exists spr maxrpm,
    motor28BYJ_48 !! "stepsPerRev" = Some spr /\
    motor28BYJ_48 !! "maxrpm" = Some maxrpm /\
    (forall rpm, exists v,
        RPMtoVREG session0 rpm = Ret v /\
        (v == rpm * (spr * 256) / 60 / (15000000 / inject_Z (2 ^ 24)))%Q /\
        (v * (15000000 / inject_Z (2 ^ 24)) * 60 == rpm * (spr * 256))%Q) /\
    (exists v, RPMtoVREG session0 maxrpm = Ret v /\ maxV session0 = Py.round v).
Proof.
  apply (RPMtoVREG_exact_quotient 15000000 motor28BYJ_48 None bench
           session0 (env state0)).
  vm_compute. reflexivity.
Defined.

(** C7.  With [ustepsPerRev] and [tconst] positive, [RPMtoVREG] returns for
    every rpm, and a larger rpm never gives a smaller value. *)
Theorem RPMtoVREG_monotone (o : tmc5130) (rpm1 rpm2 : Q) :
  (0 < ustepsPerRev o)%Q -> (0 < tconst o)%Q -> (rpm1 <= rpm2)%Q ->
  exists v1 v2,
    RPMtoVREG o rpm1 = Ret v1 /\ RPMtoVREG o rpm2 = Ret v2 /\ (v1 <= v2)%Q.
Proof.
  intros Hu Ht Hle. unfold RPMtoVREG, Py.div.
  destruct (Qeq_bool (tconst o) 0) eqn:E.
  { apply Qeq_bool_eq in E. rewrite E in Ht. exfalso. exact (Qlt_irrefl 0 Ht). }
  do 2 eexists. split; [reflexivity |]. split; [reflexivity |].
  unfold Qdiv.
  apply Qmult_le_compat_r; [| apply Qlt_le_weak, Qinv_lt_0_compat, Ht].
  apply Qmult_le_compat_r; [| discriminate].
  apply Qmult_le_compat_r; [exact Hle | apply Qlt_le_weak, Hu].
Qed.

Lemma RPMtoVREG_monotone_witness :
  exists v1 v2,
    RPMtoVREG session0 100 = Ret v1 /\ RPMtoVREG session0 220 = Ret v2 /\
    (v1 <= v2)%Q.
Proof.
  apply (RPMtoVREG_monotone session0 100 220).
  - vm_compute. reflexivity.
  - vm_compute. reflexivity.
  - vm_compute. discriminate.
Defined.

(** ** goto: the target written to XTARGET *)

(** [int] drops the fractional part: the result is no further from zero
    than [x], less than one away from it, and on the same side of zero. *)
Lemma int_truncates (x : Q) :
  (Qabs (inject_Z (Py.int x)) <= Qabs x)%Q /\
  (Qabs x < Qabs (inject_Z (Py.int x)) + 1)%Q /\
  ((0 <= x)%Q -> 0 <= Py.int x) /\
  ((x <= 0)%Q -> Py.int x <= 0).
Proof.
  destruct x as [n d]. unfold Py.int, Qle, Qlt, Qabs, Qplus, inject_Z.
  cbn [Qnum Qden]. rewrite ?Z.mul_1_r, ?Pos.mul_1_r.
  assert (Hd : 0 < Z.pos d) by lia.
  assert (Habs : Z.abs (n ÷ Z.pos d) = Z.abs n ÷ Z.pos d).
  { rewrite <- Z.quot_abs by lia. f_equal. }
  pose proof (Z.mul_quot_le (Z.abs n) (Z.pos d) (Z.abs_nonneg n) ltac:(lia)) as Hlo.
  pose proof (Z.mul_succ_quot_gt (Z.abs n) (Z.pos d) (Z.abs_nonneg n) Hd) as Hhi.
  rewrite Habs. repeat split.
  - lia.
  - lia.
  - intros Hn. apply Z.quot_pos; lia.
  - intros Hn. replace n with (- - n) by lia. rewrite Z.quot_opp_l by lia.
    pose proof (Z.quot_pos (- n) (Z.pos d) ltac:(lia) Hd). lia.
Qed.

Section Emits.

Context (P : event -> Prop).

Lemma emits_silent {A : Type} (m : M A) :
  (forall st, env (m st).2 = env st) -> emits P m.
Proof.
  intros Hm st. exists []. rewrite Hm, app_nil_r. split; constructor.
Qed.

Lemma emits_bind {A B : Type} (m : M A) (k : A -> M B) :
  emits P m -> (forall a, emits P (k a)) -> emits P (m ≫= k).
Proof.
  intros Hm Hk st. destruct (Hm st) as (evs & Htr & Hevs).
  unfold mbind, M_bind. destruct (m st) as [[a| e |] st1]; cbn [snd] in *.
  - destruct (Hk a st1) as (evs' & Htr' & Hevs').
    exists (evs ++ evs'). rewrite Htr', Htr, app_assoc.
    split; [reflexivity | apply Forall_app; split; assumption].
  - exists evs. split; assumption.
  - exists evs. split; assumption.
Qed.

Lemma emits_emit (e : event) : P e -> emits P (emit e).
Proof.
  intros He st. exists [e]. split; [reflexivity | repeat constructor; exact He].
Qed.

Lemma emits_lift {A : Type} (o : outcome A) : emits P (lift o).
Proof. apply emits_silent. reflexivity. Qed.

Lemma emits_ret {A : Type} (a : A) : emits P (mret a).
Proof. apply emits_silent. reflexivity. Qed.

Lemma emits_get_self : emits P get_self.
Proof. apply emits_silent. reflexivity. Qed.

Lemma emits_readWriteMultiple (regs : list (string * Z)) (actions : string) :
  P (ReadWriteMultiple regs actions) ->
  emits P (Driver.readWriteMultiple regs actions).
Proof.
  intros He st. unfold Driver.readWriteMultiple.
  destruct (Driver.tags (length regs) actions).
  - exists [ReadWriteMultiple regs actions].
    split; [reflexivity | repeat constructor; exact He].
  - exists []. rewrite app_nil_r. split; [reflexivity | constructor].
Qed.

Lemma emits_enableOutput (b : bool) :
  P (EnableOutput b) -> emits P (Driver.enableOutput b).
Proof.
  intros He st. exists [EnableOutput b].
  split; [reflexivity | repeat constructor; exact He].
Qed.

Hypothesis P_ReadWriteMultiple : forall regs actions, P (ReadWriteMultiple regs actions).
Hypothesis P_Sleep : forall t, P (Sleep t).
Hypothesis P_Print : forall f args, P (Print f args).
Hypothesis P_EnableOutput : forall b, P (EnableOutput b).

Lemma emits_wait_reached_loop (fuel : nat) (ticktime : Q)
    (reads : list (string * Z)) :
  emits P (wait_reached_loop fuel ticktime reads).
Proof.
  revert reads. induction fuel as [| fuel IH]; intros reads; cbn [wait_reached_loop];
    apply emits_bind; [apply emits_get_self | intros o | apply emits_get_self | intros o];
    destruct (_ =? 0); try apply emits_ret; try apply emits_lift.
  repeat (first
    [ apply emits_lift
    | apply emits_emit; solve [auto]
    | apply emits_readWriteMultiple; solve [auto]
    | apply IH
    | apply emits_bind; [| intros ?] ]).
Qed.

Lemma emits_wait_reached (fuel : nat) (ticktime : Q) :
  emits P (wait_reached fuel ticktime).
Proof.
  unfold wait_reached.
  repeat (first
    [ apply emits_lift
    | apply emits_get_self
    | apply emits_emit; solve [auto]
    | apply emits_readWriteMultiple; solve [auto]
    | apply emits_wait_reached_loop
    | apply emits_bind; [| intros ?] ]).
Qed.

Lemma emits_goto_tail (fuel : nat) (wait : bool) :
  emits P ((if wait then wait_reached fuel (1 # 2) else mret tt);;
           Driver.enableOutput false).
Proof.
  apply emits_bind; [| intros _; apply emits_enableOutput; auto].
  destruct wait; [apply emits_wait_reached | apply emits_ret].
Qed.

End Emits.

Lemma goto_split (fuel : nat) (targetpos : Q) (wait : bool) (st : state) :
  goto fuel targetpos wait st =
    ((if wait then wait_reached fuel (1 # 2) else mret tt);;
     Driver.enableOutput false) ((goto_head targetpos st).2).
Proof. reflexivity. Qed.

Lemma goto_head_trace (targetpos : Q) (st : state) :
  trace (env (goto_head targetpos st).2) =
    trace (env st) ++
      [EnableOutput true;
       WriteInt "XTARGET" (Py.int (ustepsPerRev (self st) * targetpos))].
Proof.
  unfold goto_head, Driver.enableOutput, Driver.writeInt. run. fields.
  rewrite <- app_assoc. reflexivity.
Qed.

(** ** waitStop and stop *)

Lemma polls_S (w : world) (ticktime : Q) (n k : nat) :
  polls w ticktime n (S k) =
    ReadInt "VACTUAL" (vactual w n) :: Sleep ticktime :: polls w ticktime (S n) k.
Proof.
  unfold polls. cbn [seq flat_map app]. rewrite Nat.add_0_r. do 2 f_equal.
  rewrite <- seq_shift, flat_map_concat_map, map_map, <- flat_map_concat_map.
  apply flat_map_ext. intros i. rewrite Nat.add_succ_r. reflexivity.
Qed.

Lemma waitStop_loop_S (fuel : nat) (ticktime : Q) (st : state) :
  waitStop_loop (S fuel) ticktime st =
    if vactual (env st) (tick (env st)) =? 0
    then (Ret tt, (Driver.readInt "VACTUAL" st).2)
    else waitStop_loop fuel ticktime (polled ticktime st).
Proof.
  cbn [waitStop_loop]. unfold polled, vactual, Driver.readInt. run. fields.
  destruct (_ =? 0); reflexivity.
Qed.

Lemma polled_env (ticktime : Q) (st : state) :
  tick (env (polled ticktime st)) = S (tick (env st)) /\
  chip_reg (env (polled ticktime st)) = chip_reg (env st) /\
  output (env (polled ticktime st)) = output (env st) /\
  trace (env (polled ticktime st)) =
    trace (env st) ++
      [ReadInt "VACTUAL" (vactual (env st) (tick (env st))); Sleep ticktime].
Proof.
  unfold polled, Driver.readInt, vactual. run. fields.
  rewrite <- app_assoc. repeat split.
Qed.

Lemma polled_lastwritten (ticktime : Q) (st : state) (r : string) :
  r <> "VACTUAL" ->
  lastwritten (md (self (polled ticktime st))) !! r =
    lastwritten (md (self st)) !! r.
Proof.
  intros Hr. unfold polled, Driver.readInt. run. fields.
  unfold Driver.with_batch. fields. cbn [Driver.cache foldl fst snd].
  apply lookup_insert_ne. congruence.
Qed.

Lemma first_zero_S (w w' : world) (n k : nat) :
  chip_reg w' = chip_reg w ->
  first_zero w n (S k) -> first_zero w' (S n) k.
Proof.
  unfold first_zero, vactual. intros -> [Hnz Hz]. split.
  - intros i Hi. specialize (Hnz (S i) ltac:(lia)).
    rewrite Nat.add_succ_r in Hnz. exact Hnz.
  - rewrite Nat.add_succ_r in Hz. exact Hz.
Qed.

Lemma polls_chip (w w' : world) (ticktime : Q) (n k : nat) :
  chip_reg w' = chip_reg w -> polls w' ticktime n k = polls w ticktime n k.
Proof. unfold polls, vactual. intros ->. reflexivity. Qed.

(** With the first zero at the [k]-th read and fuel for more than [k]
    reads, the loop returns after exactly [k + 1] reads. *)
Lemma waitStop_loop_returns (k : nat) :
  forall (fuel : nat) (ticktime : Q) (st : state),
    (k < fuel)%nat ->
    first_zero (env st) (tick (env st)) k ->
    exists st',
      waitStop_loop fuel ticktime st = (Ret tt, st') /\
      trace (env st') =
        trace (env st) ++
          polls (env st) ticktime (tick (env st)) k ++ [ReadInt "VACTUAL" 0] /\
      output (env st') = output (env st) /\
      (forall r, r <> "VACTUAL" ->
         lastwritten (md (self st')) !! r = lastwritten (md (self st)) !! r).
Proof.
  induction k as [| k IH]; intros fuel ticktime st Hfuel Hz;
    (destruct fuel as [| fuel]; [lia |]); rewrite waitStop_loop_S.
  - destruct Hz as [_ Hz]. rewrite Nat.add_0_r in Hz. rewrite Hz.
    cbn [Z.eqb]. eexists. split; [reflexivity |].
    unfold Driver.readInt. run. fields. fold (vactual (env st) (tick (env st))).
    rewrite Hz. repeat split.
    intros r Hr. unfold Driver.with_batch. fields.
    cbn [Driver.cache foldl fst snd]. apply lookup_insert_ne. congruence.
  - pose proof (proj1 Hz 0%nat ltac:(lia)) as Hnz. rewrite Nat.add_0_r in Hnz.
    apply Z.eqb_neq in Hnz. rewrite Hnz.
    destruct (polled_env ticktime st) as (Htick & Hchip & Hout & Htr).
    destruct (IH fuel ticktime (polled ticktime st) ltac:(lia))
      as (st' & Hrun & Htr' & Hout' & Hlw).
    { rewrite Htick. apply (first_zero_S (env st)); assumption. }
    exists st'. split; [exact Hrun |]. split; [| split].
    + rewrite Htr', Htr, Htick, (polls_chip (env st)) by exact Hchip.
      rewrite polls_S, <- !app_assoc. reflexivity.
    + rewrite Hout', Hout. reflexivity.
    + intros r Hr. rewrite Hlw by exact Hr. apply polled_lastwritten, Hr.
Qed.

(** As long as every read is nonzero the loop goes on. *)
Lemma waitStop_loop_looping (fuel : nat) :
  forall (ticktime : Q) (st : state),
    (forall i, (i < fuel)%nat -> vactual (env st) (tick (env st) + i) <> 0) ->
    exists st',
      waitStop_loop fuel ticktime st = (Looping, st') /\
      trace (env st') =
        trace (env st) ++ polls (env st) ticktime (tick (env st)) fuel.
Proof.
  induction fuel as [| fuel IH]; intros ticktime st Hnz.
  - exists st. split; [reflexivity |]. cbn. rewrite app_nil_r. reflexivity.
  - rewrite waitStop_loop_S.
    pose proof (Hnz 0%nat ltac:(lia)) as H0. rewrite Nat.add_0_r in H0.
    apply Z.eqb_neq in H0. rewrite H0.
    destruct (polled_env ticktime st) as (Htick & Hchip & _ & Htr).
    destruct (IH ticktime (polled ticktime st)) as (st' & Hrun & Htr').
    { intros i Hi. rewrite Htick. unfold vactual. rewrite Hchip.
      specialize (Hnz (S i) ltac:(lia)). rewrite Nat.add_succ_r in Hnz.
      exact Hnz. }
    exists st'. split; [exact Hrun |].
    rewrite Htr', Htr, Htick, (polls_chip (env st)) by exact Hchip.
    rewrite polls_S, <- !app_assoc. reflexivity.
Qed.

(** Among the first [m] reads from batch [n] on, either one is the first
    zero or none is zero. *)
Lemma first_zero_dec (w : world) (n m : nat) :
  (exists k, (k < m)%nat /\ first_zero w n k) \/
  (forall i, (i < m)%nat -> vactual w (n + i) <> 0).
Proof.
  induction m as [| m [(k & Hk & Hz) | Hnz]].
  - right. intros i Hi. lia.
  - left. exists k. split; [lia | exact Hz].
  - destruct (Z.eq_dec (vactual w (n + m)) 0) as [Hz | Hm].
    + left. exists m. split; [lia |]. split; assumption.
    + right. intros i Hi. destruct (Nat.eq_dec i m) as [-> |]; [exact Hm |].
      apply Hnz. lia.
Qed.

Lemma waitStop_split (fuel : nat) (ticktime : Q) (st : state) :
  waitStop fuel ticktime st =
    waitStop_loop fuel ticktime
      {| self := self st;
         env := with_trace (env st) (trace (env st) ++ [Sleep ticktime]) |}.
Proof. reflexivity. Qed.

(** C8.  [waitStop(ticktime)] never raises.  When it returns, it has slept
    once, then read VACTUAL [k + 1] times with a sleep between two reads,
    the first [k] reads were nonzero and the last one was exactly zero.
    When its fuel of [fuel] reads is used up, every one of those reads was
    nonzero (each followed by a sleep): it does not return while VACTUAL
    reads nonzero.  And when the chip answers zero at the [k]-th read, any
    fuel above [k] makes it return. *)
Theorem waitStop_until_zero (fuel : nat) (ticktime : Q) (st : state) :
  let w := env st in
  let n := tick w in
  match waitStop fuel ticktime st with
  | (Ret _, st') =>
      exists k, (k < fuel)%nat /\ first_zero w n k /\
        trace (env st') =
          trace w ++
            Sleep ticktime :: polls w ticktime n k ++ [ReadInt "VACTUAL" 0]
  | (Looping, st') =>
      (forall i, (i < fuel)%nat -> vactual w (n + i) <> 0) /\
      trace (env st') = trace w ++ Sleep ticktime :: polls w ticktime n fuel
  | (Raise _, _) => False
  end /\
  (forall k, first_zero w n k -> (k < fuel)%nat ->
     (waitStop fuel ticktime st).1 = Ret tt).
Proof.
  intros w n. rewrite waitStop_split.
  set (st1 := {| self := self st; env := _ |}).
  assert (Hw : chip_reg (env st1) = chip_reg w) by reflexivity.
  assert (Hfz : forall k, first_zero w n k ->
                  first_zero (env st1) (tick (env st1)) k).
  { intros k Hz. exact Hz. }
  split.
  - destruct (first_zero_dec w n fuel) as [(k & Hk & Hz) | Hnz].
    + destruct (waitStop_loop_returns k fuel ticktime st1 Hk (Hfz k Hz))
        as (st' & -> & Htr & _).
      exists k. split; [exact Hk |]. split; [exact Hz |].
      rewrite Htr. subst st1. fields. rewrite <- app_assoc. reflexivity.
    + destruct (waitStop_loop_looping fuel ticktime st1 Hnz) as (st' & -> & Htr).
      split; [exact Hnz |].
      rewrite Htr. subst st1. fields. rewrite <- app_assoc. reflexivity.
  - intros k Hz Hk.
    destruct (waitStop_loop_returns k fuel ticktime st1 Hk (Hfz k Hz))
      as (st' & -> & _).
    reflexivity.
Qed.

Lemma waitStop_until_zero_witness :
  (waitStop 6 (1 # 10) state0).1 = Ret tt.
Proof.
  assert (Hz : first_zero (env state0) (tick (env state0)) 5).
  { split.
    - intros i Hi.
      do 5 (destruct i as [| i]; [vm_compute; discriminate |]). lia.
    - vm_compute. reflexivity. }
  assert (Hk : (5 < 6)%nat) by lia.
  pose proof (waitStop_until_zero 6 (1 # 10) state0) as H.
  cbv zeta in H. destruct H as [_ H]. exact (H 5%nat Hz Hk).
Defined.

(** *** What each single step leaves behind *)

Lemma bind_run {A B : Type} (m : M A) (k : A -> M B) (st st1 : state) (a : A) :
  m st = (Ret a, st1) -> (m ≫= k) st = k a st1.
Proof. intros Hm. unfold mbind, M_bind. rewrite Hm. reflexivity. Qed.

Lemma readInt_run (name : string) (st : state) :
  Driver.readInt name st =
    (Ret (chip_reg (env st) (tick (env st)) name), was_read name st).
Proof. reflexivity. Qed.

Lemma writeInt_run (name : string) (value : Z) (st : state) :
  Driver.writeInt name value st = (Ret tt, written name value st).
Proof. reflexivity. Qed.

Lemma sleep_run (seconds : Q) (st : state) :
  time_sleep seconds st = (Ret tt, slept seconds st).
Proof. reflexivity. Qed.

Lemma enableOutput_run (enabled : bool) (st : state) :
  Driver.enableOutput enabled st = (Ret tt, switched enabled st).
Proof. reflexivity. Qed.

Lemma get_self_run (st : state) : get_self st = (Ret (self st), st).
Proof. reflexivity. Qed.

Lemma tick_was_read name st : tick (env (was_read name st)) = S (tick (env st)).
Proof. reflexivity. Qed.
Lemma tick_written name v st : tick (env (written name v st)) = S (tick (env st)).
Proof. reflexivity. Qed.
Lemma tick_slept t st : tick (env (slept t st)) = tick (env st).
Proof. reflexivity. Qed.

Lemma chip_was_read name st : chip_reg (env (was_read name st)) = chip_reg (env st).
Proof. reflexivity. Qed.
Lemma chip_written name v st : chip_reg (env (written name v st)) = chip_reg (env st).
Proof. reflexivity. Qed.
Lemma chip_slept t st : chip_reg (env (slept t st)) = chip_reg (env st).
Proof. reflexivity. Qed.

Lemma output_was_read name st : output (env (was_read name st)) = output (env st).
Proof. reflexivity. Qed.
Lemma output_written name v st : output (env (written name v st)) = output (env st).
Proof. reflexivity. Qed.
Lemma output_slept t st : output (env (slept t st)) = output (env st).
Proof. reflexivity. Qed.
Lemma output_switched b st : output (env (switched b st)) = b.
Proof. reflexivity. Qed.

Lemma trace_was_read name st :
  trace (env (was_read name st)) =
    trace (env st) ++ [ReadInt name (chip_reg (env st) (tick (env st)) name)].
Proof. reflexivity. Qed.
Lemma trace_written name v st :
  trace (env (written name v st)) = trace (env st) ++ [WriteInt name v].
Proof. reflexivity. Qed.
Lemma trace_slept t st : trace (env (slept t st)) = trace (env st) ++ [Sleep t].
Proof. reflexivity. Qed.
Lemma trace_switched b st :
  trace (env (switched b st)) = trace (env st) ++ [EnableOutput b].
Proof. reflexivity. Qed.

Lemma maxV_was_read name st : maxV (self (was_read name st)) = maxV (self st).
Proof. reflexivity. Qed.
Lemma maxV_written name v st : maxV (self (written name v st)) = maxV (self st).
Proof. reflexivity. Qed.

Lemma lastwritten_written name v st :
  lastwritten (md (self (written name v st))) =
    <[name := v]> (lastwritten (md (self st))).
Proof. reflexivity. Qed.
Lemma lastwritten_slept t st :
  lastwritten (md (self (slept t st))) = lastwritten (md (self st)).
Proof. reflexivity. Qed.
Lemma lastwritten_switched b st :
  lastwritten (md (self (switched b st))) = lastwritten (md (self st)).
Proof. reflexivity. Qed.

Create Rewrite HintDb steps.

#[local] Hint Rewrite
  tick_was_read tick_written tick_slept
  chip_was_read chip_written chip_slept
  output_was_read output_written output_slept output_switched
  trace_was_read trace_written trace_slept trace_switched
  maxV_was_read maxV_written
  lastwritten_written lastwritten_slept lastwritten_switched : steps.

Lemma stop_split (fuel : nat) (st : state) :
  stop fuel st =
    (waitStop_loop fuel (1 # 10);; Driver.enableOutput false) (stop_polling st).
Proof.
  unfold stop, waitStop, stop_polling.
  rewrite (bind_run _ _ _ _ _ (readInt_run _ _)).
  rewrite (bind_run _ _ _ _ _ (writeInt_run _ _ _)).
  rewrite (bind_run _ _ _ _ _ (get_self_run _)).
  rewrite (bind_run _ _ _ _ _ (writeInt_run _ _ _)).
  rewrite (bind_run _ _ _ _ _ (writeInt_run _ _ _)).
  unfold mbind at 1, M_bind at 1.
  rewrite (bind_run _ _ _ _ _ (sleep_run _ _)).
  autorewrite with steps. reflexivity.
Qed.

Lemma stop_polling_state (st : state) :
  let x := chip_reg (env st) (tick (env st)) "XACTUAL" in
  let st1 := stop_polling st in
  tick (env st1) = (tick (env st) + 4)%nat /\
  chip_reg (env st1) = chip_reg (env st) /\
  output (env st1) = output (env st) /\
  trace (env st1) =
    trace (env st) ++
      [ReadInt "XACTUAL" x; WriteInt "XTARGET" x;
       WriteInt "VMAX" (maxV (self st)); WriteInt "RAMPMODE" 0;
       Sleep (1 # 10)] /\
  lastwritten (md (self st1)) !! "XTARGET" = Some x.
Proof.
  unfold stop_polling. cbv zeta. autorewrite with steps.
  split; [lia |]. split; [reflexivity |]. split; [reflexivity |]. split.
  - rewrite <- !app_assoc. reflexivity.
  - rewrite !lookup_insert_ne by discriminate. apply lookup_insert_eq.
Qed.

(** C3.  When the chip answers zero for the first time at the [k]-th poll
    of VACTUAL (the polls start four batches after [stop] was called) and
    the fuel allows more than [k] polls, [stop] returns, and what it did
    is, in this order: read XACTUAL, write that value to XTARGET, write
    [maxV] to VMAX, write 0 to RAMPMODE, sleep, poll VACTUAL ([k] nonzero
    reads, each followed by a sleep, then the read of zero), disable the
    output.  On return the output is disabled and the value cached for
    XTARGET is the XACTUAL read at the start.  With fuel for [k] polls or
    fewer, [stop] is still polling. *)
Theorem stop_sequence (fuel k : nat) (st : state) :
  let w := env st in
  let n := tick w in
  let x := chip_reg w n "XACTUAL" in
  first_zero w (n + 4) k ->
  ((k < fuel)%nat ->
   exists st',
     stop fuel st = (Ret tt, st') /\
     trace (env st') =
       trace w ++
         [ReadInt "XACTUAL" x; WriteInt "XTARGET" x;
          WriteInt "VMAX" (maxV (self st)); WriteInt "RAMPMODE" 0;
          Sleep (1 # 10)] ++
         polls w (1 # 10) (n + 4) k ++
         [ReadInt "VACTUAL" 0; EnableOutput false] /\
     output (env st') = false /\
     lastwritten (md (self st')) !! "XTARGET" = Some x) /\
  ((fuel <= k)%nat -> (stop fuel st).1 = Looping).
Proof.
  intros w n x Hz. rewrite stop_split.
  destruct (stop_polling_state st) as (Htick & Hchip & Hout & Htr & Hx).
  set (st1 := stop_polling st) in *.
  assert (Hz1 : first_zero (env st1) (tick (env st1)) k).
  { rewrite Htick. unfold first_zero, vactual in *. rewrite Hchip. exact Hz. }
  split.
  - intros Hk.
    destruct (waitStop_loop_returns k fuel (1 # 10) st1 Hk Hz1)
      as (st2 & Hrun & Htr2 & Hout2 & Hlw).
    rewrite (bind_run _ _ _ _ _ Hrun), enableOutput_run.
    eexists. split; [reflexivity |]. autorewrite with steps.
    split; [| split; [reflexivity |]].
    + rewrite Htr2, Htr, Htick, (polls_chip w) by exact Hchip.
      rewrite <- !app_assoc. reflexivity.
    + rewrite Hlw by discriminate. exact Hx.
  - intros Hk.
    destruct (waitStop_loop_looping fuel (1 # 10) st1) as (st2 & Hrun & _).
    { intros i Hi. apply (proj1 Hz1). lia. }
    unfold mbind, M_bind. rewrite Hrun. reflexivity.
Qed.

Lemma stop_sequence_witness :
  exists st',
    stop 2 state0 = (Ret tt, st') /\
    output (env st') = false /\
    lastwritten (md (self st')) !! "XTARGET" = Some 778.
Proof.
  assert (Hz : first_zero (env state0) (tick (env state0) + 4) 1).
  { split.
    - intros i Hi. assert (i = 0%nat) as -> by lia. vm_compute. discriminate.
    - vm_compute. reflexivity. }
  assert (Hk : (1 < 2)%nat) by lia.
  pose proof (stop_sequence 2 1 state0) as H. cbv zeta in H.
  destruct (H Hz) as [Hret _].
  destruct (Hret Hk) as (st' & Hrun & _ & Hout & Hx).
  exists st'. split; [exact Hrun |]. split; [exact Hout |].
  rewrite Hx. vm_compute. reflexivity.
Defined.

(** ** goto: the target written to XTARGET, on Python's numbers *)

Lemma bind_raise {A B : Type} (m : M A) (k : A -> M B) (st st1 : state)
    (e : exc) :
  m st = (Raise e, st1) -> (m ≫= k) st = (Raise e, st1).
Proof. intros Hm. unfold mbind, M_bind. rewrite Hm. reflexivity. Qed.

Lemma lift_run {A : Type} (o : outcome A) (st : state) : lift o st = (o, st).
Proof. reflexivity. Qed.

(** [goto] on Python's numbers, once the target is computed. *)
Lemma goto_binary64_split (fuel : nat) (u t : Binary64.number) (wait : bool)
    (st : state) (v : Z) :
  xtarget u t = Ret v ->
  goto_binary64 fuel u t wait st =
    ((if wait then wait_reached fuel (1 # 2) else mret tt);;
     Driver.enableOutput false) (written "XTARGET" v (switched true st)).
Proof.
  intros Hv. unfold goto_binary64.
  rewrite (bind_run _ _ _ _ _ (enableOutput_run _ _)), Hv.
  rewrite (bind_run _ _ _ _ _ (lift_run _ _)).
  rewrite (bind_run _ _ _ _ _ (writeInt_run _ _ _)).
  reflexivity.
Qed.

(** When the target cannot be computed, [goto] raises with the output
    enabled and nothing written. *)
Lemma goto_binary64_raises (fuel : nat) (u t : Binary64.number) (wait : bool)
    (st : state) (e : exc) :
  xtarget u t = Raise e ->
  goto_binary64 fuel u t wait st = (Raise e, switched true st).
Proof.
  intros Hv. unfold goto_binary64.
  rewrite (bind_run _ _ _ _ _ (enableOutput_run _ _)), Hv.
  apply bind_raise. reflexivity.
Qed.

(** The two embeddings of [goto] run alike whenever they compute the same
    target. *)
Lemma goto_binary64_agrees (fuel : nat) (u t : Binary64.number)
    (targetpos : Q) (wait : bool) (st : state) :
  xtarget u t = Ret (Py.int (ustepsPerRev (self st) * targetpos)) ->
  goto_binary64 fuel u t wait st = goto fuel targetpos wait st.
Proof.
  intros Hv. rewrite (goto_binary64_split _ _ _ _ _ _ Hv), goto_split.
  reflexivity.
Qed.

(** The int that [int()] returns is its argument's value with the
    fractional part dropped. *)
Lemma int_of_number (p : Binary64.number) (v : Z) :
  Binary64.int p = Ret v ->
  exists x, Binary64.value p = Some x /\ v = Py.int x.
Proof.
  destruct p as [n | [s | s | | s m e]]; cbn [Binary64.int Binary64.value];
    intros H; try discriminate; injection H as <-.
  - exists (inject_Z n). split; [reflexivity |].
    unfold Py.int, inject_Z. cbn [Qnum Qden]. rewrite Z.quot_1_r. reflexivity.
  - eexists. split; reflexivity.
  - eexists. split; reflexivity.
Qed.

(** Neither the product nor the conversion loops. *)
Lemma xtarget_not_looping (u t : Binary64.number) : xtarget u t <> Looping.
Proof.
  unfold xtarget, Binary64.mul, Binary64.of_int.
  destruct u as [m | x], t as [n | y].
  - discriminate.
  - destruct (Binary64.normalize m) as [s | s | | s a e]; try discriminate;
      cbn [Binary64.int];
      destruct (Binary64.fmul _ y) as [s' | s' | | s' a' e']; discriminate.
  - destruct (Binary64.normalize n) as [s | s | | s a e]; try discriminate;
      cbn [Binary64.int];
      destruct (Binary64.fmul x _) as [s' | s' | | s' a' e']; discriminate.
  - cbn [Binary64.int].
    destruct (Binary64.fmul x y) as [s' | s' | | s' a' e']; discriminate.
Qed.




(** * Further properties *)

(** ** round *)

(** [round] never reverses an order. *)
Lemma round_monotone (x y : Q) : (x <= y)%Q -> Py.round x <= Py.round y.
Proof.
  intros Hxy. pose proof (Qfloor_resp_le x y Hxy) as Hf.
  assert (Hx : Py.round x <= Qfloor x + 1).
  { unfold Py.round. cbv zeta.
    destruct (_ ?= _)%Q; [destruct (Z.even _) | |]; lia. }
  assert (Hy : Qfloor y <= Py.round y).
  { unfold Py.round. cbv zeta.
    destruct (_ ?= _)%Q; [destruct (Z.even _) | |]; lia. }
  destruct (Z.eq_dec (Qfloor x) (Qfloor y)) as [Heq | Hne]; [| lia].
  unfold Py.round. cbv zeta. rewrite <- Heq.
  destruct (Qcompare_spec (x - inject_Z (Qfloor x)) (1 # 2)) as [He | Hl | Hg];
    destruct (Qcompare_spec (y - inject_Z (Qfloor x)) (1 # 2)) as [He' | Hl' | Hg'];
    try destruct (Z.even (Qfloor x)); try lia; exfalso; lra.
Qed.

(** ** Construction: every way it can end *)

Lemma tconst_zero (clockfrequ0 : Q) :
  (clockfrequ0 == 0)%Q ->
  Qeq_bool (clockfrequ0 / inject_Z (2 ^ 24)) 0 = true.
Proof.
  intros Hcf. apply Qeq_bool_iff. rewrite Hcf. reflexivity.
Qed.

(** X1.  A construction that yields a session keeps the settings dict and
    the clock frequency it was given, has [uSC] = 256, and leaves in the
    driver's cache, for each of the thirteen registers of the batch that
    are tagged 'W', the value that was written: in particular VMAX is
    cached at the session's [maxV]. *)
Theorem construct_caches_writes (clockfrequ0 : Q) (settings0 : gmap string Q)
    (pigio : option pi) (w : world) (o : tmc5130) (w' : world) :
  construct clockfrequ0 settings0 pigio w = (Ret o, w') ->
  settings o = settings0 /\
  clockfrequ o = clockfrequ0 /\
  uSC o = 256%Q /\
  lastwritten (md o) !! "VMAX" = Some (maxV o) /\
  (forall name v,
      In (name, v) (regsettings (maxV o)) ->
      name <> "GSTAT" -> name <> "GCONF" ->
      lastwritten (md o) !! name = Some v).
Proof.
  unfold construct, __init__. run.
  destruct pigio as [p|]; cbn [handle];
    (destruct (connected _); cbn [negb]; [| run; discriminate]);
    run; fields; unfold Py.getitem;
    (destruct (settings0 !! "stepsPerRev") as [spr|]; [| discriminate]);
    run; fields;
    (destruct (settings0 !! "maxrpm") as [rpm|]; [| discriminate]);
    unfold RPMtoVREG, Py.div; fields;
    (destruct (Qeq_bool (clockfrequ0 / inject_Z (2 ^ 24)) 0); [discriminate |]);
    unfold Driver.new; run; fields;
    change (length (regsettings _) =? String.length regactions)%nat with true;
    cbv iota beta; unfold Driver.readWriteMultiple;
    change (Driver.tags (length (regsettings _)) regactions)
      with (Driver.tags 15 regactions);
    rewrite tags_regactions; run; fields;
    intros [= <- <-]; fields;
    do 3 (split; [reflexivity |]);
    unfold Driver.with_batch; fields;
    cbn [Driver.cache Driver.results Driver.result regsettings zip_with foldl
         String.list_ascii_of_string Ascii.eqb Bool.eqb fst snd];
    (split;
     [ rewrite !lookup_insert_ne by discriminate; apply lookup_insert_eq
     | intros name v Hin Hgstat Hgconf; cbn [In] in Hin;
       repeat (destruct Hin as [[= <- <-] | Hin];
               [ first [ contradiction
                       | rewrite ?lookup_insert_ne by discriminate;
                         apply lookup_insert_eq ] |]);
       contradiction ]).
Qed.

Lemma construct_caches_writes_witness :
  lastwritten (md session0) !! "VMAX" = Some (maxV session0).
Proof.
  assert (Hc : construct 15000000 motor28BYJ_48 None bench =
               (Ret session0, env state0)) by (vm_compute; reflexivity).
  pose proof (construct_caches_writes 15000000 motor28BYJ_48 None bench
                session0 (env state0) Hc) as (_ & _ & _ & Hvmax & _).
  exact Hvmax.
Defined.

(** X2.  With a connected handle, a settings dict that lacks a key makes the
    construction raise [KeyError] for that key, 'stepsPerRev' being looked
    up first; the trace is as it was: nothing was logged, no driver was
    created, no register was touched. *)
Theorem construct_missing_setting (clockfrequ0 : Q)
    (settings0 : gmap string Q) (pigio : option pi) (w : world) :
  connected (handle pigio w) = true ->
  (settings0 !! "stepsPerRev" = None ->
   construct clockfrequ0 settings0 pigio w =
     (Raise (KeyError "stepsPerRev"), w)) /\
  (is_Some (settings0 !! "stepsPerRev") ->
   settings0 !! "maxrpm" = None ->
   construct clockfrequ0 settings0 pigio w = (Raise (KeyError "maxrpm"), w)).
Proof.
  intros Hon. split.
  - intros Hspr. unfold construct, __init__. run.
    destruct pigio as [p|]; cbn [handle] in Hon |- *;
      rewrite Hon; cbn [negb];
      run; fields; unfold Py.getitem; rewrite Hspr; run;
      destruct w; reflexivity.
  - intros [spr Hspr] Hrpm. unfold construct, __init__. run.
    destruct pigio as [p|]; cbn [handle] in Hon |- *;
      rewrite Hon; cbn [negb];
      run; fields; unfold Py.getitem; rewrite Hspr;
      run; fields; rewrite Hrpm; run;
      destruct w; reflexivity.
Qed.

Lemma construct_missing_setting_witness :
  construct 15000000 {[ "stepsPerRev" := 200%Q ]} None bench =
    (Raise (KeyError "maxrpm"), bench).
Proof.
  pose proof (construct_missing_setting 15000000 {[ "stepsPerRev" := 200%Q ]}
                None bench) as H.
  destruct H as [_ H]; [reflexivity |].
  apply H.
  - exists 200%Q. vm_compute. reflexivity.
  - vm_compute. reflexivity.
Defined.

(** X3.  With a connected handle and both settings present, a clock frequency of
    zero makes [tconst] zero and the construction raises
    [ZeroDivisionError] in [RPMtoVREG], before the driver is created. *)
Theorem construct_zero_clock (clockfrequ0 : Q) (settings0 : gmap string Q)
    (pigio : option pi) (w : world) :
  connected (handle pigio w) = true ->
  is_Some (settings0 !! "stepsPerRev") ->
  is_Some (settings0 !! "maxrpm") ->
  (clockfrequ0 == 0)%Q ->
  construct clockfrequ0 settings0 pigio w = (Raise ZeroDivisionError, w).
Proof.
  intros Hon [spr Hspr] [rpm Hrpm] Hcf. apply tconst_zero in Hcf.
  unfold construct, __init__. run.
  destruct pigio as [p|]; cbn [handle] in Hon |- *;
    rewrite Hon; cbn [negb];
    run; fields; unfold Py.getitem; rewrite Hspr;
    run; fields; rewrite Hrpm;
    unfold RPMtoVREG, Py.div; fields; rewrite Hcf; run;
    destruct w; reflexivity.
Qed.

Lemma construct_zero_clock_witness :
  construct 0 motor28BYJ_48 None bench = (Raise ZeroDivisionError, bench).
Proof.
  apply (construct_zero_clock 0 motor28BYJ_48 None bench).
  - reflexivity.
  - exists (2048 / 12)%Q. vm_compute. reflexivity.
  - exists 220%Q. vm_compute. reflexivity.
  - reflexivity.
Defined.

(** ** maxV *)

(** X6.  Two sessions on the same positive clock frequency and the same
    non-negative stepsPerRev: the one with the larger maxrpm never has the
    smaller [maxV]. *)
Theorem maxV_monotone (clockfrequ0 spr rpm1 rpm2 : Q)
    (settings1 settings2 : gmap string Q) (pigio1 pigio2 : option pi)
    (w1 w2 : world) (o1 o2 : tmc5130) (w1' w2' : world) :
  construct clockfrequ0 settings1 pigio1 w1 = (Ret o1, w1') ->
  construct clockfrequ0 settings2 pigio2 w2 = (Ret o2, w2') ->
  settings1 !! "stepsPerRev" = Some spr ->
  settings2 !! "stepsPerRev" = Some spr ->
  settings1 !! "maxrpm" = Some rpm1 ->
  settings2 !! "maxrpm" = Some rpm2 ->
  (0 < clockfrequ0)%Q -> (0 <= spr)%Q -> (rpm1 <= rpm2)%Q ->
  maxV o1 <= maxV o2.
Proof.
  intros Hc1 Hc2 Hs1 Hs2 Hr1 Hr2 Hcf Hspr Hle.
  destruct (construct_inv _ _ _ _ _ _ Hc1)
    as (spr1 & r1 & v1 & _ & Hs1' & Hr1' & _ & Hv1 & _ & _ & _ & _ & Hm1 & _).
  destruct (construct_inv _ _ _ _ _ _ Hc2)
    as (spr2 & r2 & v2 & _ & Hs2' & Hr2' & _ & Hv2 & _ & _ & _ & _ & Hm2 & _).
  rewrite Hs1 in Hs1'. rewrite Hs2 in Hs2'. rewrite Hr1 in Hr1'.
  rewrite Hr2 in Hr2'.
  injection Hs1' as <-. injection Hs2' as <-. injection Hr1' as <-.
  injection Hr2' as <-.
  rewrite Hm1, Hm2, Hv1, Hv2. apply round_monotone.
  unfold Qdiv.
  apply Qmult_le_compat_r.
  - apply Qmult_le_compat_r; [| discriminate].
    apply Qmult_le_compat_r; [exact Hle |].
    apply Qmult_le_0_compat; [exact Hspr | discriminate].
  - apply Qlt_le_weak, Qinv_lt_0_compat.
    apply Qmult_lt_0_compat; [exact Hcf | reflexivity].
Qed.

Lemma maxV_monotone_witness : 81445 <= maxV session0.
Proof.
  pose (settings1 :=
          ({[ "stepsPerRev" := (2048 / 12)%Q; "maxrpm" := 100%Q ]}
             : gmap string Q)).
  pose (r1 := construct 15000000 settings1 None bench).
  pose (o1 := match r1 with (Ret o, _) => o | _ => blank end).
  assert (Hc1 : r1 = (Ret o1, r1.2)) by (vm_compute; reflexivity).
  assert (Hc2 : construct 15000000 motor28BYJ_48 None bench =
                (Ret session0, env state0)) by (vm_compute; reflexivity).
  pose proof (maxV_monotone 15000000 (2048 / 12) 100 220
                settings1 motor28BYJ_48 None None bench bench
                o1 session0 r1.2 (env state0) Hc1 Hc2) as H.
  assert (Hm : maxV o1 = 81445) by (vm_compute; reflexivity).
  rewrite <- Hm. apply H.
  - vm_compute. reflexivity.
  - vm_compute. reflexivity.
  - vm_compute. reflexivity.
  - vm_compute. reflexivity.
  - reflexivity.
  - discriminate.
  - discriminate.
Defined.

(** ** goto: the enable line *)

Section Quiet.

Lemma quiet_bind {A B : Type} (m : M A) (k : A -> M B) :
  quiet m -> (forall a, quiet (k a)) -> quiet (m ≫= k).
Proof.
  intros Hm Hk st. specialize (Hm st). unfold mbind, M_bind.
  destruct (m st) as [[a | e |] st1]; cbn [snd] in *.
  - rewrite Hk. exact Hm.
  - exact Hm.
  - exact Hm.
Qed.

Lemma quiet_lift {A : Type} (o : outcome A) : quiet (lift o).
Proof. intros st. reflexivity. Qed.

Lemma quiet_ret {A : Type} (a : A) : quiet (mret a).
Proof. intros st. reflexivity. Qed.

Lemma quiet_get_self : quiet get_self.
Proof. intros st. reflexivity. Qed.

Lemma quiet_emit (e : event) : quiet (emit e).
Proof. intros st. reflexivity. Qed.

Lemma quiet_readWriteMultiple (regs : list (string * Z)) (actions : string) :
  quiet (Driver.readWriteMultiple regs actions).
Proof.
  intros st. unfold Driver.readWriteMultiple.
  destruct (Driver.tags (length regs) actions); reflexivity.
Qed.

Lemma quiet_wait_reached_loop (fuel : nat) (ticktime : Q)
    (reads : list (string * Z)) :
  quiet (wait_reached_loop fuel ticktime reads).
Proof.
  revert reads. induction fuel as [| fuel IH]; intros reads;
    cbn [wait_reached_loop];
    apply quiet_bind; [apply quiet_get_self | intros o | apply quiet_get_self | intros o];
    destruct (_ =? 0); try apply quiet_ret; try apply quiet_lift.
  repeat (first
    [ apply quiet_lift
    | apply quiet_emit
    | apply quiet_readWriteMultiple
    | apply IH
    | apply quiet_bind; [| intros ?] ]).
Qed.

Lemma quiet_wait_reached (fuel : nat) (ticktime : Q) :
  quiet (wait_reached fuel ticktime).
Proof.
  unfold wait_reached.
  repeat (first
    [ apply quiet_lift
    | apply quiet_get_self
    | apply quiet_emit
    | apply quiet_readWriteMultiple
    | apply quiet_wait_reached_loop
    | apply quiet_bind; [| intros ?] ]).
Qed.

End Quiet.

Lemma goto_head_output (targetpos : Q) (st : state) :
  output (env (goto_head targetpos st).2) = true.
Proof. reflexivity. Qed.

(** X7.  When [goto] returns, the output is disabled; when it does not return
    (the wait raised, or is still polling), the output is still enabled. *)
Theorem goto_output_on_exit (fuel : nat) (targetpos : Q) (wait : bool)
    (st : state) :
  match goto fuel targetpos wait st with
  | (Ret _, st') => output (env st') = false
  | (_, st') => output (env st') = true
  end.
Proof.
  rewrite goto_split.
  pose proof (goto_head_output targetpos st) as Hon.
  set (st1 := (goto_head targetpos st).2) in *.
  assert (Hq : quiet (if wait then wait_reached fuel (1 # 2) else mret tt)).
  { destruct wait; [apply quiet_wait_reached | apply quiet_ret]. }
  specialize (Hq st1). rewrite Hon in Hq.
  unfold mbind, M_bind.
  destruct ((if wait then wait_reached fuel (1 # 2) else mret tt) st1)
    as [[[] | e |] st2]; cbn [snd] in Hq.
  - reflexivity.
  - exact Hq.
  - exact Hq.
Qed.

(** ** goto: the target is monotone *)

(** [int] never reverses an order. *)
Lemma int_monotone (x y : Q) : (x <= y)%Q -> Py.int x <= Py.int y.
Proof.
  destruct x as [n1 d1], y as [n2 d2]. unfold Qle, Py.int. cbn [Qnum Qden].
  intros Hle.
  rewrite <- (Z.quot_mul_cancel_r n1 (Z.pos d1) (Z.pos d2)) by lia.
  rewrite <- (Z.quot_mul_cancel_r n2 (Z.pos d2) (Z.pos d1)) by lia.
  rewrite (Z.mul_comm (Z.pos d2) (Z.pos d1)).
  apply Z.quot_le_mono; lia.
Qed.

(** X8.  With [ustepsPerRev] not negative, a larger target position never gives
    a smaller value written to XTARGET. *)
Theorem goto_target_monotone (fuel1 fuel2 : nat) (targetpos1 targetpos2 : Q)
    (wait1 wait2 : bool) (st : state) :
  (0 <= ustepsPerRev (self st))%Q -> (targetpos1 <= targetpos2)%Q ->
  exists v1 v2 rest1 rest2,
    trace (env (goto fuel1 targetpos1 wait1 st).2) =
      trace (env st) ++ EnableOutput true :: WriteInt "XTARGET" v1 :: rest1 /\
    trace (env (goto fuel2 targetpos2 wait2 st).2) =
      trace (env st) ++ EnableOutput true :: WriteInt "XTARGET" v2 :: rest2 /\
    v1 <= v2.
Proof.
  intros Hu Hle.
  assert (Htail : forall fuel targetpos wait, exists rest,
             trace (env (goto fuel targetpos wait st).2) =
               trace (env st) ++
                 EnableOutput true ::
                 WriteInt "XTARGET"
                   (Py.int (ustepsPerRev (self st) * targetpos)) :: rest).
  { intros fuel targetpos wait. rewrite goto_split.
    assert (He : emits (fun _ => True)
                   ((if wait then wait_reached fuel (1 # 2) else mret tt);;
                    Driver.enableOutput false))
      by (apply emits_goto_tail; intros; exact I).
    destruct (He (goto_head targetpos st).2) as (rest & Htr & _).
    exists rest. rewrite Htr, goto_head_trace, <- app_assoc. reflexivity. }
  destruct (Htail fuel1 targetpos1 wait1) as (rest1 & H1).
  destruct (Htail fuel2 targetpos2 wait2) as (rest2 & H2).
  do 4 eexists. split; [exact H1 |]. split; [exact H2 |].
  apply int_monotone. rewrite !(Qmult_comm (ustepsPerRev (self st))).
  apply Qmult_le_compat_r; assumption.
Qed.

Lemma goto_target_monotone_witness :
  exists v1 v2 rest1 rest2,
    trace (env (goto 0 (-1 # 2) false state0).2) =
      trace (env state0) ++
        EnableOutput true :: WriteInt "XTARGET" v1 :: rest1 /\
    trace (env (goto 0 1 false state0).2) =
      trace (env state0) ++
        EnableOutput true :: WriteInt "XTARGET" v2 :: rest2 /\
    v1 <= v2.
Proof.
  pose proof (goto_target_monotone 0 0 (-1 # 2) 1 false false state0) as H.
  apply H.
  - vm_compute. discriminate.
  - discriminate.
Defined.

(** ** wait_reached only observes *)

Section Observing.

Context (P : event -> Prop).
Hypothesis P_batch_R : forall regs, P (ReadWriteMultiple regs "R").
Hypothesis P_Sleep : forall t, P (Sleep t).
Hypothesis P_Print : forall f args, P (Print f args).

Lemma observing_wait_reached_loop (fuel : nat) (ticktime : Q)
    (reads : list (string * Z)) :
  emits P (wait_reached_loop fuel ticktime reads).
Proof.
  revert reads. induction fuel as [| fuel IH]; intros reads;
    cbn [wait_reached_loop];
    apply emits_bind; [apply emits_get_self | intros o | apply emits_get_self | intros o];
    destruct (_ =? 0); try apply emits_ret; try apply emits_lift.
  repeat (first
    [ apply emits_lift
    | apply emits_emit; solve [auto]
    | apply emits_readWriteMultiple; solve [auto]
    | apply IH
    | apply emits_bind; [| intros ?] ]).
Qed.

Lemma observing_wait_reached (fuel : nat) (ticktime : Q) :
  emits P (wait_reached fuel ticktime).
Proof.
  unfold wait_reached.
  repeat (first
    [ apply emits_lift
    | apply emits_get_self
    | apply emits_emit; solve [auto]
    | apply emits_readWriteMultiple; solve [auto]
    | apply observing_wait_reached_loop
    | apply emits_bind; [| intros ?] ]).
Qed.

End Observing.


(** ** wait_reached and the batch engine *)

(** X10.  [wait_reached] hands five registers and the single tag 'R' to
    [readWriteMultiple].  With the batch engine checking that there is one
    tag per register, the batch is rejected before any bus activity:
    [wait_reached] raises [ArgumentMismatch] after its first sleep, whatever
    the chip does, and [goto] with the wait raises it after enabling the
    output, writing XTARGET and sleeping once, with the output still
    enabled. *)
Theorem wait_reached_rejected (fuel : nat) (ticktime targetpos : Q)
    (st : state) :
  wait_reached fuel ticktime st = (Raise ArgumentMismatch, slept ticktime st) /\
  trace (env (slept ticktime st)) = trace (env st) ++ [Sleep ticktime] /\
  (goto fuel targetpos true st).1 = Raise ArgumentMismatch /\
  output (env (goto fuel targetpos true st).2) = true /\
  exists v,
    trace (env (goto fuel targetpos true st).2) =
      trace (env st) ++
        [EnableOutput true; WriteInt "XTARGET" v; Sleep (1 # 2)].
Proof.
  assert (Hw : forall t s,
             wait_reached fuel t s = (Raise ArgumentMismatch, slept t s)).
  { intros t s. unfold wait_reached.
    rewrite (bind_run _ _ _ _ _ (sleep_run _ _)).
    apply bind_raise. reflexivity. }
  split; [apply Hw |]. split; [apply trace_slept |].
  rewrite goto_split.
  rewrite (bind_raise _ _ _ _ _ (Hw (1 # 2) (goto_head targetpos st).2)).
  cbn [fst snd]. split; [reflexivity |]. split; [reflexivity |].
  eexists. rewrite trace_slept, goto_head_trace, <- app_assoc. reflexivity.
Qed.

(** ** close: who owns the pigpio handle *)

Lemma construct_mypio (clockfrequ0 : Q) (settings0 : gmap string Q)
    (pigio : option pi) (w : world) (o : tmc5130) (w' : world) :
  construct clockfrequ0 settings0 pigio w = (Ret o, w') ->
  pg o = Some (handle pigio w) /\
  mypio o = match pigio with Some _ => false | None => true end.
Proof.
  unfold construct, __init__. run.
  destruct pigio as [p|]; cbn [handle];
    (destruct (connected _); cbn [negb]; [| run; discriminate]);
    run; fields; unfold Py.getitem;
    (destruct (settings0 !! "stepsPerRev") as [spr|]; [| discriminate]);
    run; fields;
    (destruct (settings0 !! "maxrpm") as [rpm|]; [| discriminate]);
    unfold RPMtoVREG, Py.div; fields;
    (destruct (Qeq_bool (clockfrequ0 / inject_Z (2 ^ 24)) 0); [discriminate |]);
    unfold Driver.new; run; fields;
    change (length (regsettings _) =? String.length regactions)%nat with true;
    cbv iota beta; unfold Driver.readWriteMultiple;
    change (Driver.tags (length (regsettings _)) regactions)
      with (Driver.tags 15 regactions);
    rewrite tags_regactions; run; fields;
    intros [= <- <-]; fields; split; reflexivity.
Qed.

(** X13.  Closing a session right after its construction closes the driver and
    forgets the handle; pigpio itself is stopped only if the construction
    created the handle ([pigio] was None), never when the caller passed
    one in. *)
Theorem construct_then_close (clockfrequ0 : Q) (settings0 : gmap string Q)
    (pigio : option pi) (w : world) (o : tmc5130) (w' : world) :
  construct clockfrequ0 settings0 pigio w = (Ret o, w') ->
  exists st',
    close {| self := o; env := w' |} = (Ret tt, st') /\
    pg o = Some (handle pigio w) /\
    pg (self st') = None /\
    trace (env st') =
      trace w' ++
        DriverClose ::
        match pigio with Some _ => [] | None => [PigpioStop] end.
Proof.
  intros Hc. destruct (construct_mypio _ _ _ _ _ _ Hc) as [Hpg Hmine].
  unfold close, Driver.close. run. fields. rewrite Hmine.
  destruct pigio as [p|]; run; fields;
    (eexists; split; [reflexivity |]); fields;
    (split; [exact Hpg |]); (split; [reflexivity |]).
  - reflexivity.
  - rewrite <- app_assoc. reflexivity.
Qed.

Lemma construct_then_close_witness :
  exists st',
    close state0 = (Ret tt, st') /\
    pg (self st') = None /\
    trace (env st') = trace (env state0) ++ [DriverClose; PigpioStop].
Proof.
  assert (Hc : construct 15000000 motor28BYJ_48 None bench =
               (Ret (self state0), env state0)) by (vm_compute; reflexivity).
  pose proof (construct_then_close 15000000 motor28BYJ_48 None bench
                (self state0) (env state0) Hc) as (st' & Hrun & _ & Hpg & Htr).
  exists st'. split; [| split; [exact Hpg | exact Htr]].
  rewrite <- Hrun. vm_compute. reflexivity.
Defined.

(** ** goto without waiting, then stop *)

Lemma tick_switched b st : tick (env (switched b st)) = tick (env st).
Proof. reflexivity. Qed.
Lemma chip_switched b st : chip_reg (env (switched b st)) = chip_reg (env st).
Proof. reflexivity. Qed.
Lemma maxV_switched b st : maxV (self (switched b st)) = maxV (self st).
Proof. reflexivity. Qed.
Lemma maxV_slept t st : maxV (self (slept t st)) = maxV (self st).
Proof. reflexivity. Qed.
Lemma lastwritten_was_read name st :
  lastwritten (md (self (was_read name st))) =
    <[name := chip_reg (env st) (tick (env st)) name]>
      (lastwritten (md (self st))).
Proof. reflexivity. Qed.

#[local] Hint Rewrite
  tick_switched chip_switched maxV_switched maxV_slept lastwritten_was_read
  : steps.

Lemma goto_nowait_run (fuel : nat) (targetpos : Q) (st : state) :
  goto fuel targetpos false st =
    (Ret tt,
     switched false
       (written "XTARGET" (Py.int (ustepsPerRev (self st) * targetpos))
          (switched true st))).
Proof. reflexivity. Qed.

(** The cache at the moment [stop] enters its loop. *)
Lemma stop_polling_cache (st : state) :
  let x := chip_reg (env st) (tick (env st)) "XACTUAL" in
  let lw := lastwritten (md (self (stop_polling st))) in
  lw !! "XACTUAL" = Some x /\
  lw !! "XTARGET" = Some x /\
  lw !! "VMAX" = Some (maxV (self st)) /\
  lw !! "RAMPMODE" = Some 0.
Proof.
  unfold stop_polling. cbv zeta. autorewrite with steps.
  repeat split;
    rewrite ?lookup_insert_ne by discriminate; apply lookup_insert_eq.
Qed.


